(** * botbunker reporting API (app.py): a shallow embedding and its properties

    The program is a small Flask service with three read endpoints over a
    PostgreSQL store.  The embedding follows the source:

    - Python numbers are [pynum]: an [int] (a [Z]) or a value of the type
      the column [avg_resolution_time] is read as.  That type is a
      parameter with the arithmetic the handlers use ([PyReal]); it is
      instantiated with IEEE-754 binary64 (Python's [float]) and with the
      rationals (the same expressions evaluated without rounding).
    - The store is a record of four tables; every SQL statement of the
      source has a function giving its rows.
    - The handlers run in a small monad that threads the trace of store
      calls and propagates Python exceptions; [try]/[except] and the
      [require_api_key] decorator are combinators of that monad. *)

From Stdlib Require Import ZArith List Sorted Bool QArith Qminmax Floats Lia Lqa.
From stdpp Require Import gmap strings.

Close Scope Q_scope.
Open Scope string_scope.
Open Scope list_scope.
Open Scope Z_scope.

(** ** Python exceptions and results *)

Inductive exn : Type :=
| ZeroDivisionError
| OperationalError.

Inductive result (X : Type) : Type :=
| Ok (x : X)
| Raise (e : exn).
Arguments Ok {X} x.
Arguments Raise {X} e.

(** [str(e)], the text the handlers put in a 500 body (for a failing
    store call the wording is the driver's). *)
Definition str_exn (e : exn) : string :=
  match e with
  | ZeroDivisionError => "float division by zero"
  | OperationalError => "server closed the connection unexpectedly"
  end.

(** ** Numbers *)

(** The arithmetic of the non-integer number type: conversion from [int]
    and the three operations the handlers apply; [int_truediv] is Python's
    [int / int], which yields a value of this type as well. *)
Class PyReal (A : Type) : Type := {
  of_int : Z -> A;
  radd : A -> A -> A;
  rmul : A -> A -> A;
  rdiv : A -> A -> A;
  int_truediv : Z -> Z -> A
}.

Inductive pynum (A : Type) : Type :=
| PyInt (z : Z)
| PyFloat (x : A).
Arguments PyInt {A} z.
Arguments PyFloat {A} x.

(** binary64: [float(n)] rounds to nearest, ties to even.  (Python raises
    OverflowError from 2^1024 on; integer columns of the store are 64-bit,
    and a window has at most 30 rows, so that case is out of reach.) *)
Definition float_of_Z (z : Z) : float :=
  SF2Prim (binary_normalize 53 1024 z 0 false).

(** The exact integer as a (not yet rounded) binary float. *)
Definition sf_of_Z (z : Z) : spec_float :=
  match z with
  | Z0 => S754_zero false
  | Zpos p => S754_finite false p 0
  | Zneg p => S754_finite true p 0
  end.

(** [a / b] on two ints is the correctly rounded quotient. *)
Definition float_int_truediv (a b : Z) : float :=
  SF2Prim (SFdiv 53 1024 (sf_of_Z a) (sf_of_Z b)).

#[export] Instance float_PyReal : PyReal float := {
  of_int := float_of_Z;
  radd := PrimFloat.add;
  rmul := PrimFloat.mul;
  rdiv := PrimFloat.div;
  int_truediv := float_int_truediv
}.

#[export] Instance Q_PyReal : PyReal Q := {
  of_int := inject_Z;
  radd := Qplus;
  rmul := Qmult;
  rdiv := Qdiv;
  int_truediv := fun a b => Qdiv (inject_Z a) (inject_Z b)
}.

Section Arithmetic.
Context {A : Type} `{PyReal A}.

(** [float(x)] for a number that takes part in a mixed operation. *)
Definition to_real (x : pynum A) : A :=
  match x with
  | PyInt z => of_int z
  | PyFloat a => a
  end.

(** [x + y] *)
Definition py_add (x y : pynum A) : pynum A :=
  match x, y with
  | PyInt a, PyInt b => PyInt (a + b)
  | _, _ => PyFloat (radd (to_real x) (to_real y))
  end.

(** [x * y] *)
Definition py_mul (x y : pynum A) : pynum A :=
  match x, y with
  | PyInt a, PyInt b => PyInt (a * b)
  | _, _ => PyFloat (rmul (to_real x) (to_real y))
  end.

(** [x / n] with an [int] divisor: ZeroDivisionError when [n] is 0. *)
Definition py_truediv (x : pynum A) (n : Z) : result (pynum A) :=
  if n =? 0 then Raise ZeroDivisionError
  else match x with
       | PyInt a => Ok (PyFloat (int_truediv a n))
       | PyFloat a => Ok (PyFloat (rdiv a (of_int n)))
       end.

(** [sum(f(x) for x in xs if cond(x))]: the accumulator starts at the
    int 0 and the items are added from left to right.  (From CPython 3.12
    on, [sum] adds floats with a compensated carry, which can change the
    last bits of a binary64 sum of several items; a sum of one item is the
    item in every version.) *)
Definition py_sum {X : Type} (cond : X -> bool) (f : X -> pynum A)
    (xs : list X) : pynum A :=
  fold_left (fun acc x => if cond x then py_add acc (f x) else acc)
            xs (PyInt 0).

(** The same generator over an integer column: the sum is an [int]. *)
Definition py_sum_int {X : Type} (cond : X -> bool) (f : X -> Z)
    (xs : list X) : Z :=
  fold_left (fun acc x => if cond x then acc + f x else acc) xs 0.

(** [sum(items)] of an explicit list, for the statements. *)
Definition sum_of (items : list (pynum A)) : pynum A :=
  fold_left py_add items (PyInt 0).

Fixpoint Zsum (items : list Z) : Z :=
  match items with
  | [] => 0
  | x :: rest => x + Zsum rest
  end.

(** ** The ticket window and its totals (guild_stats, lines 105-116) *)

(** One dict of [ticket_stats], as [row_to_dict] builds it from the four
    selected columns. *)
Record stat : Type := {
  date : Z;
  tickets_opened : Z;
  tickets_closed : Z;
  avg_resolution_time : A
}.

Definition row_to_dict_stat (row : Z * Z * Z * A) : stat :=
  let '(d, o, c, t) := row in
  {| date := d; tickets_opened := o; tickets_closed := c;
     avg_resolution_time := t |}.

Definition every (s : stat) : bool := true.

(** [stat["tickets_closed"] > 0] *)
Definition has_closed (s : stat) : bool := 0 <? tickets_closed s.

(** [stat["avg_resolution_time"] * stat["tickets_closed"]] *)
Definition weighted (s : stat) : pynum A :=
  py_mul (PyFloat (avg_resolution_time s)) (PyInt (tickets_closed s)).

(** The conditional expression of lines 112-115: the condition is
    evaluated first and the quotient only when it holds. *)
Definition total_avg_resolution_time (ticket_stats : list stat)
    : result (pynum A) :=
  if 0 <? py_sum_int has_closed tickets_closed ticket_stats
  then py_truediv (py_sum has_closed weighted ticket_stats)
                  (py_sum_int has_closed tickets_closed ticket_stats)
  else Ok (PyInt 0).

(** The dict under ["total"]. *)
Record ticket_total : Type := {
  opened : Z;
  closed : Z;
  total_avg : pynum A
}.

Definition tickets_total (ticket_stats : list stat) : result ticket_total :=
  let o := py_sum_int every tickets_opened ticket_stats in
  let c := py_sum_int every tickets_closed ticket_stats in
  match total_avg_resolution_time ticket_stats with
  | Ok a => Ok {| opened := o; closed := c; total_avg := a |}
  | Raise e => Raise e
  end.

End Arithmetic.

Arguments stat A : clear implicits.
Arguments ticket_total A : clear implicits.

(** ** Values of a JSON dict built field by field *)

Inductive value : Type :=
| VNone
| VInt (z : Z)
| VStr (s : string)
| VBool (b : bool)
| VTimestamp (t : Z).

(** Python truthiness and [x or y]. *)
Definition truthy (v : value) : bool :=
  match v with
  | VNone => false
  | VInt z => negb (z =? 0)
  | VStr s => negb (String.eqb s "")
  | VBool b => b
  | VTimestamp _ => true
  end.

Definition py_or (x y : value) : value := if truthy x then x else y.

(** ** SQL helpers *)

(** ORDER BY key DESC, as a stable insertion sort (SQL leaves the order of
    rows with equal keys open; the model keeps the table order). *)
Fixpoint insert_desc {X : Type} (key : X -> Z) (x : X) (l : list X) : list X :=
  match l with
  | [] => [x]
  | y :: rest => if key y <=? key x then x :: l
                 else y :: insert_desc key x rest
  end.

Definition order_by_desc {X : Type} (key : X -> Z) (l : list X) : list X :=
  fold_right (insert_desc key) [] l.

(** The distinct values of a column in ascending order: the groups of
    GROUP BY col ORDER BY col. *)
Fixpoint insert_distinct (z : Z) (l : list Z) : list Z :=
  match l with
  | [] => [z]
  | y :: rest => if z <? y then z :: l
                 else if z =? y then l
                 else y :: insert_distinct z rest
  end.

Definition distinct_asc (l : list Z) : list Z :=
  fold_right insert_distinct [] l.

(** SUM(col): NULL over no rows. *)
Definition sql_sum (col : list Z) : value :=
  match col with
  | [] => VNone
  | _ => VInt (Zsum col)
  end.

(** AVG(col): NULL over no rows.  The store rounds the mean to its numeric
    scale; the model keeps the exact quotient. *)
Definition sql_avg (col : list Z) : option Q :=
  match col with
  | [] => None
  | _ => Some (Qmake (Zsum col) (Pos.of_nat (List.length col)))
  end.

(** ** The store *)

Record activated_server : Type := {
  srv_guild_id : string;
  srv_server_name : string;
  srv_owner_id : Z;
  srv_owner_name : string;
  srv_activated_at : Z;
  srv_active : bool;
  srv_key_id : option Z            (* NULL when no key is referenced *)
}.

Record license_key : Type := {
  key_id : Z;
  key_value : string;
  created_at : Z;
  created_by : string;
  used : bool;
  used_by : option string;
  used_at : option Z;
  expires_at : option Z
}.

Record feedback_row : Type := {
  fb_guild_id : string;
  fb_rating : Z
}.

(** The dicts of the feedback part of the report. *)
Record feedback_overall : Type := {
  total : Z;
  avg_rating : option Q
}.

Record rating_count : Type := {
  rating : Z;
  count : Z
}.

Record guild_data : Type := {
  id : string;
  name : string;
  owner : string
}.

(** The statements the handlers execute, with their parameters. *)
Inductive query : Type :=
| SelectGuildInfo (guild_id : string)
| SelectTicketStats (guild_id : string)
| SelectFeedbackOverall (guild_id : string)
| SelectFeedbackDistribution (guild_id : string)
| SelectLicenses
| SelectServers
| SelectTicketSums (guild_id : string).

(** What reaches the store during a request. *)
Inductive event : Type :=
| Connect (dsn : string)
| Execute (q : query)
| Close.

(** The process environment and the part of the request the gate reads. *)
Record environ : Type := {
  API_KEY : option string;
  DATABASE_URL : option string
}.

Record request : Type := {
  x_api_key : option string       (* request.headers.get('X-API-Key') *)
}.

Section Service.
Context {A : Type} `{PyReal A}.

Record ticket_stats_row : Type := {
  ts_guild_id : string;
  ts_date : Z;
  ts_tickets_opened : Z;
  ts_tickets_closed : Z;
  ts_avg_resolution_time : A
}.

Record database : Type := {
  activated_servers : list activated_server;
  license_keys : list license_key;
  ticket_stats : list ticket_stats_row;
  feedback : list feedback_row
}.

(** *** The seven statements *)

(** SELECT server_name, owner_name FROM activated_servers
    WHERE guild_id = %s, then [fetchone()]. *)
Definition select_guild_info (db : database) (guild_id : string)
    : option (string * string) :=
  match List.filter (fun a => String.eqb (srv_guild_id a) guild_id)
                    (activated_servers db) with
  | [] => None
  | a :: _ => Some (srv_server_name a, srv_owner_name a)
  end.

Definition stats_of (db : database) (guild_id : string)
    : list ticket_stats_row :=
  List.filter (fun r => String.eqb (ts_guild_id r) guild_id)
              (ticket_stats db).

(** SELECT date, tickets_opened, tickets_closed, avg_resolution_time
    FROM ticket_stats WHERE guild_id = %s ORDER BY date DESC LIMIT 30 *)
Definition select_ticket_stats (db : database) (guild_id : string)
    : list (Z * Z * Z * A) :=
  List.map (fun r => (ts_date r, ts_tickets_opened r, ts_tickets_closed r,
                      ts_avg_resolution_time r))
           (List.firstn 30 (order_by_desc ts_date (stats_of db guild_id))).

Definition ratings_of (db : database) (guild_id : string) : list Z :=
  List.map fb_rating
    (List.filter (fun r => String.eqb (fb_guild_id r) guild_id)
                 (feedback db)).

(** SELECT COUNT( * ) as total, AVG(rating) as avg_rating FROM feedback
    WHERE guild_id = %s *)
Definition select_feedback_overall (db : database) (guild_id : string)
    : Z * option Q :=
  (Z.of_nat (List.length (ratings_of db guild_id)),
   sql_avg (ratings_of db guild_id)).

(** COUNT( * ) of the group of one rating. *)
Definition group_size (r : Z) (ratings : list Z) : Z :=
  Z.of_nat (List.length (List.filter (Z.eqb r) ratings)).

(** SELECT rating, COUNT( * ) as count FROM feedback WHERE guild_id = %s
    GROUP BY rating ORDER BY rating *)
Definition select_feedback_distribution (db : database) (guild_id : string)
    : list (Z * Z) :=
  List.map (fun r => (r, group_size r (ratings_of db guild_id)))
           (distinct_asc (ratings_of db guild_id)).

(** SELECT key_id, ..., expires_at FROM license_keys
    ORDER BY created_at DESC *)
Definition select_licenses (db : database) : list license_key :=
  order_by_desc created_at (license_keys db).

(** The rows of activated_servers a JOIN license_keys l
    ON a.key_id = l.key_id: one per matching pair. *)
Definition key_matches (a : activated_server) (l : license_key) : bool :=
  match srv_key_id a with
  | Some k => k =? key_id l
  | None => false
  end.

Definition joined (db : database) : list (activated_server * license_key) :=
  List.flat_map
    (fun a => List.map (fun l => (a, l))
                       (List.filter (key_matches a) (license_keys db)))
    (activated_servers db).

Definition server_row : Type :=
  string * string * Z * string * Z * bool * string.

(** SELECT a.guild_id, a.server_name, a.owner_id, a.owner_name,
    a.activated_at, a.active, l.key_value FROM activated_servers a
    JOIN license_keys l ON a.key_id = l.key_id
    ORDER BY a.activated_at DESC *)
Definition select_servers (db : database) : list server_row :=
  List.map (fun al : activated_server * license_key =>
              let (a, l) := al in
              (srv_guild_id a, srv_server_name a, srv_owner_id a,
               srv_owner_name a, srv_activated_at a, srv_active a,
               key_value l))
           (order_by_desc (fun al => srv_activated_at (fst al)) (joined db)).

(** SELECT SUM(tickets_opened) as opened, SUM(tickets_closed) as closed
    FROM ticket_stats WHERE guild_id = %s *)
Definition select_ticket_sums (db : database) (guild_id : string)
    : value * value :=
  (sql_sum (List.map ts_tickets_opened (stats_of db guild_id)),
   sql_sum (List.map ts_tickets_closed (stats_of db guild_id))).

(** *** Responses *)

Record guild_report : Type := {
  guild : guild_data;
  daily : list (stat A);
  tickets_total_of : ticket_total A;
  overall : feedback_overall;
  distribution : list rating_count
}.

Inductive json_body : Type :=
| JIndex
| JError (msg : string)
| JGuildReport (r : guild_report)
| JLicenses (licenses : list license_key)
| JServers (servers : list (gmap string value)).

Record response : Type := {
  status : Z;
  body : json_body
}.

(** [jsonify(...)] with its default status.  The encoding of the body
    (lines 33-41) is not part of the model: a value the encoder refuses
    would make the call raise inside the [try]. *)
Definition jsonify (b : json_body) : response :=
  {| status := 200; body := b |}.

Definition jsonify_error (msg : string) (code : Z) : response :=
  {| status := code; body := JError msg |}.

(** *** The request monad: trace of store calls, exceptions *)

(** [env] is the process environment, [db] the content of the store
    during the request, and [outage n] tells whether the store call
    number [n] of the request (counting from 0) fails. *)
Variable env : environ.
Variable db : database.
Variable outage : nat -> bool.

Definition M (X : Type) : Type := list event -> result X * list event.

Definition ret {X : Type} (x : X) : M X := fun tr => (Ok x, tr).

Definition bind {X Y : Type} (m : M X) (k : X -> M Y) : M Y :=
  fun tr =>
    match m tr with
    | (Ok x, tr') => k x tr'
    | (Raise e, tr') => (Raise e, tr')
    end.

Definition raise {X : Type} (e : exn) : M X := fun tr => (Raise e, tr).

Definition lift {X : Type} (r : result X) : M X := fun tr => (r, tr).

(** try: body / except Exception as e: handler(e) *)
Definition try_except {X : Type} (body : M X) (handler : exn -> X) : M X :=
  fun tr =>
    match body tr with
    | (Raise e, tr') => (Ok (handler e), tr')
    | done => done
    end.

(** One call to the store: it is recorded, and it answers unless the
    store is out at that point. *)
Definition store_call {X : Type} (ev : event) (answer : X) : M X :=
  fun tr =>
    (if outage (List.length tr) then Raise OperationalError else Ok answer,
     tr ++ [ev]).

Notation "'let!' x ':=' m 'in' k" := (bind m (fun x => k))
  (at level 10, x pattern, m at level 100, k at level 200).

(** *** app.py *)

Definition require_api_key (f : M response) (req : request) : M response :=
  if bool_decide (x_api_key req <> API_KEY env)
  then ret (jsonify_error "Unauthorized" 401)
  else f.

(** [psycopg2.connect(os.getenv('DATABASE_URL'))]: with the variable
    unset the driver is handed no dsn, makes the empty connection string
    of it (the defaults of the client library) and tries to connect all
    the same. *)
Definition connection_string : string :=
  match DATABASE_URL env with
  | Some dsn => dsn
  | None => ""
  end.

Definition get_db_connection : M unit :=
  store_call (Connect connection_string) tt.

Definition row_to_dict_count (row : Z * Z) : rating_count :=
  {| rating := fst row; count := snd row |}.

Definition row_to_dict_overall (row : Z * option Q) : feedback_overall :=
  {| total := fst row; avg_rating := snd row |}.

Definition index : response := jsonify JIndex.

Definition guild_stats_body (guild_id : string) : M response :=
  try_except
    (let! _ := get_db_connection in
     let! guild_info := store_call (Execute (SelectGuildInfo guild_id))
                                   (select_guild_info db guild_id) in
     match guild_info with
     | None => ret (jsonify_error "Guild not found" 404)
     | Some (server_name, owner_name) =>
       let guild_data :=
         {| id := guild_id; name := server_name; owner := owner_name |} in
       let! rows := store_call (Execute (SelectTicketStats guild_id))
                               (select_ticket_stats db guild_id) in
       let ticket_stats := List.map row_to_dict_stat rows in
       let! overall_row := store_call (Execute (SelectFeedbackOverall guild_id))
                                      (select_feedback_overall db guild_id) in
       let feedback_overall := row_to_dict_overall overall_row in
       let! count_rows :=
         store_call (Execute (SelectFeedbackDistribution guild_id))
                    (select_feedback_distribution db guild_id) in
       let feedback_distribution := List.map row_to_dict_count count_rows in
       let! _ := store_call Close tt in
       let! total := lift (tickets_total ticket_stats) in
       ret (jsonify (JGuildReport
              {| guild := guild_data;
                 daily := ticket_stats;
                 tickets_total_of := total;
                 overall := feedback_overall;
                 distribution := feedback_distribution |}))
     end)
    (fun e => jsonify_error (str_exn e) 500).

Definition guild_stats (req : request) (guild_id : string) : M response :=
  require_api_key (guild_stats_body guild_id) req.

Definition list_licenses_body : M response :=
  try_except
    (let! _ := get_db_connection in
     let! licenses := store_call (Execute SelectLicenses)
                                 (select_licenses db) in
     let! _ := store_call Close tt in
     ret (jsonify (JLicenses licenses)))
    (fun e => jsonify_error (str_exn e) 500).

Definition list_licenses (req : request) : M response :=
  require_api_key list_licenses_body req.

(** The dict literal of lines 166-174. *)
Definition server_of_row (row : server_row) : gmap string value :=
  let '(guild_id, server_name, owner_id, owner_name, activated_at, active,
        license_key) := row in
  <["guild_id" := VStr guild_id]>
  (<["server_name" := VStr server_name]>
  (<["owner_id" := VInt owner_id]>
  (<["owner_name" := VStr owner_name]>
  (<["activated_at" := VTimestamp activated_at]>
  (<["active" := VBool active]>
  (<["license_key" := VStr license_key]> ∅)))))).

Definition row_guild_id (row : server_row) : string :=
  let '(guild_id, _, _, _, _, _, _) := row in guild_id.

(** The two assignments of lines 184-185. *)
Definition with_ticket_sums (server : gmap string value)
    (stats : value * value) : gmap string value :=
  <["tickets_closed" := py_or (snd stats) (VInt 0)]>
  (<["tickets_opened" := py_or (fst stats) (VInt 0)]> server).

(** The loop of lines 165-187 over the fetched rows; [servers] is the
    list built so far. *)
Fixpoint enrich (rows : list server_row) (servers : list (gmap string value))
    : M (list (gmap string value)) :=
  match rows with
  | [] => ret servers
  | row :: rest =>
    let server := server_of_row row in
    let! stats := store_call (Execute (SelectTicketSums (row_guild_id row)))
                             (select_ticket_sums db (row_guild_id row)) in
    let server := with_ticket_sums server stats in
    enrich rest (servers ++ [server])
  end.

(** The dict the loop appends for one fetched row. *)
Definition listed_server (row : server_row) : gmap string value :=
  with_ticket_sums (server_of_row row)
                   (select_ticket_sums db (row_guild_id row)).

Definition list_servers_body : M response :=
  try_except
    (let! _ := get_db_connection in
     let! rows := store_call (Execute SelectServers) (select_servers db) in
     let! servers := enrich rows [] in
     let! _ := store_call Close tt in
     ret (jsonify (JServers servers)))
    (fun e => jsonify_error (str_exn e) 500).

Definition list_servers (req : request) : M response :=
  require_api_key list_servers_body req.

(** A request starts with nothing sent to the store. *)
Definition run {X : Type} (m : M X) : result X * list event := m [].

End Service.

Arguments database A : clear implicits.
Arguments ticket_stats_row A : clear implicits.
Arguments guild_report A : clear implicits.
Arguments json_body A : clear implicits.
Arguments response A : clear implicits.

(** ** Extremes of a list of resolution times *)

Definition Qmin_list (l : list Q) : Q :=
  match l with
  | [] => 0%Q
  | a :: rest => fold_left Qmin rest a
  end.

Definition Qmax_list (l : list Q) : Q :=
  match l with
  | [] => 0%Q
  | a :: rest => fold_left Qmax rest a
  end.

Fixpoint Qsum (l : list Q) : Q :=
  match l with
  | [] => 0%Q
  | x :: rest => (x + Qsum rest)%Q
  end.

Definition float_min (a b : float) : float := if PrimFloat.ltb b a then b else a.
Definition float_max (a b : float) : float := if PrimFloat.ltb a b then b else a.

Definition float_min_list (l : list float) : float :=
  match l with
  | [] => PrimFloat.zero
  | a :: rest => fold_left float_min rest a
  end.

Definition float_max_list (l : list float) : float :=
  match l with
  | [] => PrimFloat.zero
  | a :: rest => fold_left float_max rest a
  end.

(** The resolution times of the rows that closed tickets. *)
Definition closing_times {A : Type} (ticket_stats : list (stat A)) : list A :=
  List.map avg_resolution_time (List.filter has_closed ticket_stats).

(** "The weighted average lies between the least and the greatest
    resolution time of the rows with closed tickets", for binary64 and for
    exact arithmetic. *)
Definition within_extremes_float (ticket_stats : list (stat float)) : Prop :=
  exists t x,
    tickets_total ticket_stats = Ok t /\ total_avg t = PyFloat x /\
    PrimFloat.leb (float_min_list (closing_times ticket_stats)) x = true /\
    PrimFloat.leb x (float_max_list (closing_times ticket_stats)) = true.

Definition within_extremes_exact (ticket_stats : list (stat Q)) : Prop :=
  exists t x,
    tickets_total ticket_stats = Ok t /\ total_avg t = PyFloat x /\
    (Qmin_list (closing_times ticket_stats) <= x)%Q /\
    (x <= Qmax_list (closing_times ticket_stats))%Q.

(** ** The weighted mean of the specification *)





(** ** Sample data *)

(** 0.1 as a binary64 value. *)
Definition one_tenth : float := 0x1.999999999999ap-4%float.

(** One day, three tickets closed in 0.1 on average. *)
Definition rounding_window : list (stat float) :=
  [ {| date := 0; tickets_opened := 3; tickets_closed := 3;
       avg_resolution_time := one_tenth |} ].

(** The window of the specification's example. *)
Definition example_window : list (stat Q) :=
  [ {| date := 2; tickets_opened := 10; tickets_closed := 8;
       avg_resolution_time := 5%Q |};
    {| date := 1; tickets_opened := 5; tickets_closed := 0;
       avg_resolution_time := 0%Q |} ].

Definition idle_window : list (stat Q) :=
  [ {| date := 2; tickets_opened := 4; tickets_closed := 0;
       avg_resolution_time := 0%Q |};
    {| date := 1; tickets_opened := 5; tickets_closed := 0;
       avg_resolution_time := 7%Q |} ].

(** A store with three guilds: g1 has ticket rows and feedback, g2
    references a key that does not exist, g3 has no ticket rows. *)
Definition sample_db : database Q := {|
  activated_servers :=
    [ {| srv_guild_id := "g1"; srv_server_name := "Alpha"; srv_owner_id := 7;
         srv_owner_name := "ann"; srv_activated_at := 10; srv_active := true;
         srv_key_id := Some 1 |};
      {| srv_guild_id := "g2"; srv_server_name := "Beta"; srv_owner_id := 8;
         srv_owner_name := "bob"; srv_activated_at := 20; srv_active := true;
         srv_key_id := Some 5 |};
      {| srv_guild_id := "g3"; srv_server_name := "Gamma"; srv_owner_id := 8;
         srv_owner_name := "bob"; srv_activated_at := 30; srv_active := false;
         srv_key_id := Some 2 |} ];
  license_keys :=
    [ {| key_id := 1; key_value := "K1"; created_at := 1; created_by := "root";
         used := true; used_by := Some "ann"; used_at := Some 10;
         expires_at := None |};
      {| key_id := 2; key_value := "K2"; created_at := 2; created_by := "root";
         used := true; used_by := Some "bob"; used_at := Some 30;
         expires_at := None |} ];
  ticket_stats :=
    [ {| ts_guild_id := "g1"; ts_date := 2; ts_tickets_opened := 10;
         ts_tickets_closed := 8; ts_avg_resolution_time := 5%Q |};
      {| ts_guild_id := "g1"; ts_date := 1; ts_tickets_opened := 5;
         ts_tickets_closed := 0; ts_avg_resolution_time := 0%Q |} ];
  feedback :=
    [ {| fb_guild_id := "g1"; fb_rating := 5 |};
      {| fb_guild_id := "g1"; fb_rating := 5 |};
      {| fb_guild_id := "g1"; fb_rating := 3 |};
      {| fb_guild_id := "g2"; fb_rating := 4 |} ]
|}.

Definition sample_env : environ :=
  {| API_KEY := Some "secret"; DATABASE_URL := Some "postgres://db" |}.

Definition keyless_env : environ :=
  {| API_KEY := None; DATABASE_URL := Some "postgres://db" |}.

Definition with_key : request := {| x_api_key := Some "secret" |}.
Definition without_key : request := {| x_api_key := None |}.

Definition healthy : nat -> bool := fun _ => false.

Definition unlicensed_guild : activated_server :=
  {| srv_guild_id := "g2"; srv_server_name := "Beta"; srv_owner_id := 8;
     srv_owner_name := "bob"; srv_activated_at := 20; srv_active := true;
     srv_key_id := Some 5 |}.

Definition sample_report : guild_report Q :=
  {| guild := {| id := "g1"; name := "Alpha"; owner := "ann" |};
     daily := example_window;
     tickets_total_of :=
       {| opened := 15; closed := 8; total_avg := PyFloat (40 # 8)%Q |};
     overall := {| total := 3; avg_rating := Some (13 # 3)%Q |};
     distribution := [ {| rating := 3; count := 1 |};
                       {| rating := 5; count := 2 |} ] |}.

Definition sample_report_trace : list event :=
  [ Connect "postgres://db"; Execute (SelectGuildInfo "g1");
    Execute (SelectTicketStats "g1"); Execute (SelectFeedbackOverall "g1");
    Execute (SelectFeedbackDistribution "g1"); Close ].

Definition sample_servers : list (gmap string value) :=
  [ with_ticket_sums
      (server_of_row ("g3", "Gamma", 8, "bob", 30, false, "K2"))
      (VNone, VNone);
    with_ticket_sums
      (server_of_row ("g1", "Alpha", 7, "ann", 10, true, "K1"))
      (VInt 15, VInt 8) ].

Definition sample_servers_trace : list event :=
  [ Connect "postgres://db"; Execute SelectServers;
    Execute (SelectTicketSums "g3"); Execute (SelectTicketSums "g1"); Close ].

(** ** Further definitions *)

(** [row_to_dict(cursor, row)] of lines 29-30, for any sequence of column
    names ([col[0]] of each entry of [cursor.description]) and any row:
    [zip] stops at the shorter of the two, and in the dict comprehension a
    later pair replaces an earlier one with the same key. *)
Definition row_to_dict {V : Type} (description : list string) (row : list V)
    : gmap string V :=
  fold_left (fun d kv => <[fst kv := snd kv]> d) (zip description row) ∅.

(** The dict [row_to_dict] gives for a row of ticket_stats. *)
Definition stat_of_row {A : Type} (row : ticket_stats_row A) : stat A :=
  row_to_dict_stat (ts_date row, ts_tickets_opened row, ts_tickets_closed row,
                    ts_avg_resolution_time row).

(** Two results of exact arithmetic that denote the same number. *)
Definition same_number (x y : pynum Q) : Prop :=
  match x, y with
  | PyInt a, PyInt b => a = b
  | PyFloat a, PyFloat b => (a == b)%Q
  | _, _ => False
  end.

(** A guild row whose key id is the key id of some license row. *)
Definition has_license {A : Type} (db : database A) (a : activated_server)
    : bool :=
  existsb (key_matches a) (license_keys db).

(** The nine keys of a dict of the server listing. *)
Definition server_keys : gset string :=
  {[ "guild_id"; "server_name"; "owner_id"; "owner_name"; "activated_at";
     "active"; "license_key"; "tickets_opened"; "tickets_closed" ]}.

(** Column descriptions: of the distribution statement, and one with a
    repeated name. *)
Definition two_columns : list string := [ "rating"; "count" ].
Definition repeated_columns : list string := [ "guild_id"; "opened"; "guild_id" ].

(** An outcome of a request that is an answer (no exception escaped) with
    one of the allowed status codes, and with an error body exactly when
    the status is not 200. *)
Definition answers {A : Type} (allowed : list Z)
    (outcome : result (response A) * list event) : Prop :=
  exists resp tr,
    outcome = (Ok resp, tr) /\
    In (status resp) allowed /\
    (status resp = 200 <-> forall msg, body resp <> JError msg).

(** A store whose call number [k] fails. *)
Definition down_at (k : nat) : nat -> bool := fun n => Nat.eqb n k.

(** The report of g3, a guild without ticket rows and without feedback. *)
Definition quiet_report : guild_report Q :=
  {| guild := {| id := "g3"; name := "Gamma"; owner := "bob" |};
     daily := [];
     tickets_total_of := {| opened := 0; closed := 0; total_avg := PyInt 0 |};
     overall := {| total := 0; avg_rating := None |};
     distribution := [] |}.

Definition quiet_report_trace : list event :=
  [ Connect "postgres://db"; Execute (SelectGuildInfo "g3");
    Execute (SelectTicketStats "g3"); Execute (SelectFeedbackOverall "g3");
    Execute (SelectFeedbackDistribution "g3"); Close ].

(** * Properties *)

(** ** Sums *)

Lemma fold_int_acc {X : Type} (cond : X -> bool) (f : X -> Z) (xs : list X) :
  forall acc,
    fold_left (fun acc x => if cond x then acc + f x else acc) xs acc
    = acc + Zsum (List.map f (List.filter cond xs)).
Proof.
  induction xs as [|x xs IH]; intros acc; simpl.
  - lia.
  - destruct (cond x); rewrite IH; simpl; lia.
Qed.

Lemma py_sum_int_spec {X : Type} (cond : X -> bool) (f : X -> Z) (xs : list X) :
  py_sum_int cond f xs = Zsum (List.map f (List.filter cond xs)).
Proof. unfold py_sum_int. rewrite fold_int_acc. lia. Qed.

Lemma py_sum_int_every {A : Type} (f : stat A -> Z) (xs : list (stat A)) :
  py_sum_int every f xs = Zsum (List.map f xs).
Proof.
  rewrite py_sum_int_spec. f_equal. f_equal.
  induction xs as [|x xs IH]; simpl; [reflexivity | now rewrite IH].
Qed.

Lemma Zsum_positive (l : list Z) :
  Forall (fun z => 0 < z) l -> l <> [] -> 0 < Zsum l.
Proof.
  induction 1 as [|z l Hz Hl IH]; intros Hne; [congruence|].
  simpl. destruct l as [|z' l'].
  - simpl. lia.
  - assert (0 < Zsum (z' :: l')) by (apply IH; discriminate). lia.
Qed.

Section Totals.
Context {A : Type} `{PyReal A}.
Implicit Types (ticket_stats : list (stat A)) (s : stat A).

Lemma fold_py_acc {X : Type} (cond : X -> bool) (f : X -> pynum A)
    (xs : list X) :
  forall acc,
    fold_left (fun acc x => if cond x then py_add acc (f x) else acc) xs acc
    = fold_left py_add (List.map f (List.filter cond xs)) acc.
Proof.
  induction xs as [|x xs IH]; intros acc; simpl; [reflexivity|].
  destruct (cond x); simpl; apply IH.
Qed.

Lemma py_sum_spec {X : Type} (cond : X -> bool) (f : X -> pynum A)
    (xs : list X) :
  py_sum cond f xs = sum_of (List.map f (List.filter cond xs)).
Proof. apply fold_py_acc. Qed.

Lemma has_closed_iff s : has_closed s = true <-> 0 < tickets_closed s.
Proof. unfold has_closed. apply Z.ltb_lt. Qed.

Lemma closed_filtered_positive ticket_stats :
  (exists s, In s ticket_stats /\ 0 < tickets_closed s) ->
  0 < Zsum (List.map tickets_closed (List.filter has_closed ticket_stats)).
Proof.
  intros (s & Hin & Hpos).
  assert (Hs : In s (List.filter has_closed ticket_stats))
    by (apply filter_In; split; [assumption | now apply has_closed_iff]).
  apply Zsum_positive.
  - apply List.Forall_forall. intros z Hz.
    apply in_map_iff in Hz as (s' & <- & Hs').
    apply filter_In in Hs' as [_ Hs']. now apply has_closed_iff.
  - destruct (List.filter has_closed ticket_stats); [destruct Hs | discriminate].
Qed.

Lemma no_closed_filtered ticket_stats :
  (forall s, In s ticket_stats -> tickets_closed s = 0) ->
  List.filter has_closed ticket_stats = [].
Proof.
  induction ticket_stats as [|s l IH]; intros Hzero; simpl; [reflexivity|].
  unfold has_closed at 1. rewrite (Hzero s (or_introl eq_refl)). simpl.
  apply IH. intros s' Hs'. apply Hzero. now right.
Qed.

Lemma fold_py_add_float (items : list (pynum A)) :
  forall x, exists y, fold_left py_add items (PyFloat x) = PyFloat y.
Proof.
  induction items as [|i items IH]; intros x; simpl; [now exists x|].
  apply IH.
Qed.

(** A non-empty sum of weighted times is not an int. *)
Lemma sum_of_weighted_float (l : list (stat A)) :
  l <> [] -> exists W, sum_of (List.map weighted l) = PyFloat W.
Proof.
  destruct l as [|s l]; [congruence|]. intros _.
  unfold sum_of. simpl. apply fold_py_add_float.
Qed.

(** The aggregator is total: the quotient is never taken at 0. *)
Lemma total_avg_resolution_time_defined ticket_stats :
  exists a, total_avg_resolution_time ticket_stats = Ok a.
Proof.
  unfold total_avg_resolution_time.
  destruct (0 <? py_sum_int has_closed tickets_closed ticket_stats) eqn:Hpos;
    [|now eexists].
  apply Z.ltb_lt in Hpos. unfold py_truediv.
  destruct (Z.eqb_spec (py_sum_int has_closed tickets_closed ticket_stats) 0);
    [lia|].
  destruct (py_sum has_closed weighted ticket_stats); now eexists.
Qed.

Lemma tickets_total_defined ticket_stats :
  exists t, tickets_total ticket_stats = Ok t.
Proof.
  unfold tickets_total.
  destruct (total_avg_resolution_time_defined ticket_stats) as [a ->].
  now eexists.
Qed.

(** With a row that closed tickets, the total is the quotient of a
    non-int sum by a positive int. *)
Lemma tickets_total_with_closed ticket_stats :
  (exists s, In s ticket_stats /\ 0 < tickets_closed s) ->
  let rows := List.filter has_closed ticket_stats in
  exists W,
    sum_of (List.map weighted rows) = PyFloat W /\
    0 < Zsum (List.map tickets_closed rows) /\
    tickets_total ticket_stats
    = Ok {| opened := py_sum_int every tickets_opened ticket_stats;
            closed := py_sum_int every tickets_closed ticket_stats;
            total_avg :=
              PyFloat (rdiv W (of_int (Zsum (List.map tickets_closed rows)))) |}.
Proof.
  intros Hsome rows.
  pose proof (closed_filtered_positive _ Hsome) as Hpos. fold rows in Hpos.
  destruct (sum_of_weighted_float rows) as [W HW].
  { intros Hnil. rewrite Hnil in Hpos. simpl in Hpos. lia. }
  exists W. split; [assumption|]. split; [assumption|].
  unfold tickets_total, total_avg_resolution_time.
  rewrite py_sum_int_spec, py_sum_spec. fold rows.
  destruct (Z.ltb_spec 0 (Zsum (List.map tickets_closed rows))); [|lia].
  unfold py_truediv.
  destruct (Z.eqb_spec (Zsum (List.map tickets_closed rows)) 0); [lia|].
  rewrite HW. reflexivity.
Qed.

(** C2: when no row of the window closed a ticket (the empty window
    included), the guard of the conditional is false, so the quotient is
    not evaluated, no ZeroDivisionError is raised, and the average of the
    total is the int 0. *)
Theorem no_closed_tickets_gives_zero ticket_stats :
  (forall s, In s ticket_stats -> tickets_closed s = 0) ->
  (0 <? py_sum_int has_closed tickets_closed ticket_stats) = false /\
  total_avg_resolution_time ticket_stats = Ok (PyInt 0) /\
  total_avg_resolution_time ticket_stats <> Raise ZeroDivisionError /\
  exists t, tickets_total ticket_stats = Ok t /\ total_avg t = PyInt 0.
Proof.
  intros Hzero.
  assert (Hguard : (0 <? py_sum_int has_closed tickets_closed ticket_stats)
                   = false).
  { rewrite py_sum_int_spec, (no_closed_filtered _ Hzero). reflexivity. }
  assert (Havg : total_avg_resolution_time ticket_stats = Ok (PyInt 0)).
  { unfold total_avg_resolution_time. now rewrite Hguard. }
  repeat split; try assumption.
  - rewrite Havg. discriminate.
  - unfold tickets_total. rewrite Havg. eexists. split; reflexivity.
Qed.

(** C6: for every window the total is produced, and its [opened] and
    [closed] are the sums of the two columns over all rows; both are 0
    for the empty window. *)
Theorem opened_closed_are_column_sums ticket_stats :
  (exists t,
      tickets_total ticket_stats = Ok t /\
      opened t = Zsum (List.map tickets_opened ticket_stats) /\
      closed t = Zsum (List.map tickets_closed ticket_stats)) /\
  tickets_total (@nil (stat A))
  = Ok {| opened := 0; closed := 0; total_avg := PyInt 0 |}.
Proof.
  split; [|reflexivity].
  unfold tickets_total.
  destruct (total_avg_resolution_time_defined ticket_stats) as [a ->].
  eexists. split; [reflexivity|]. simpl.
  split; apply py_sum_int_every.
Qed.

End Totals.

(** ** The example of the specification, and witnesses *)

Example example_window_total :
  tickets_total example_window
  = Ok {| opened := 15; closed := 8; total_avg := PyFloat (40 # 8)%Q |}
  /\ (40 # 8 == 5)%Q.
Proof. split; reflexivity. Qed.

Lemma no_closed_tickets_gives_zero_example :
  (0 <? py_sum_int has_closed tickets_closed idle_window) = false /\
  total_avg_resolution_time idle_window = Ok (PyInt 0) /\
  total_avg_resolution_time idle_window <> Raise ZeroDivisionError /\
  exists t, tickets_total idle_window = Ok t /\ total_avg t = PyInt 0.
Proof.
  apply (no_closed_tickets_gives_zero idle_window).
  intros s [<- | [<- | []]]; reflexivity.
Defined.

(** ** The weighted average and the extremes of the window *)

(** The total of the one-row window, as binary64 computes it. *)
Lemma rounding_window_total :
  tickets_total rounding_window
  = Ok {| opened := 3; closed := 3;
          total_avg := PyFloat 0x1.999999999999bp-4%float |}.
Proof. vm_compute. reflexivity. Qed.


(** C7 fails in binary64: the product 0.1 * 3 rounds up to
    0.30000000000000004 and its quotient by 3 is 0.10000000000000002, one
    unit in the last place above 0.1, the only (hence greatest) resolution
    time of the window. *)
Lemma rounding_window_exceeds_max :
  tickets_total rounding_window
  = Ok {| opened := 3; closed := 3;
          total_avg := PyFloat 0x1.999999999999bp-4%float |} /\
  float_max_list (closing_times rounding_window) = 0x1.999999999999ap-4%float /\
  PrimFloat.leb 0x1.999999999999bp-4%float
                (float_max_list (closing_times rounding_window)) = false.
Proof. repeat split; vm_compute; reflexivity. Qed.

Lemma rounding_window_not_within : ~ within_extremes_float rounding_window.
Proof.
  intros (t & x & Ht & Hx & _ & Hmax).
  rewrite rounding_window_total in Ht. injection Ht as <-.
  simpl in Hx. injection Hx as <-.
  vm_compute in Hmax. discriminate.
Qed.

Section Exact.
Implicit Types (ticket_stats : list (stat Q)) (s : stat Q).
Local Open Scope Q_scope.

Lemma to_real_py_add (x y : pynum Q) :
  to_real (py_add x y) == to_real x + to_real y.
Proof.
  destruct x as [a|a], y as [b|b];
    cbn [py_add to_real of_int radd Q_PyReal];
    [rewrite inject_Z_plus | | | ]; reflexivity.
Qed.

Lemma fold_py_add_exact (items : list (pynum Q)) :
  forall acc,
    to_real (fold_left py_add items acc)
    == to_real acc + Qsum (List.map to_real items).
Proof.
  induction items as [|i items IH]; intros acc; simpl.
  - ring.
  - rewrite IH, to_real_py_add. ring.
Qed.

Lemma sum_of_exact (items : list (pynum Q)) :
  to_real (sum_of items) == Qsum (List.map to_real items).
Proof. unfold sum_of. rewrite fold_py_add_exact. simpl. ring. Qed.

(** Each weighted time lies between the bounds times its weight. *)
Lemma weighted_sum_bounds (lo hi : Q) (rows : list (stat Q)) :
  (forall s, In s rows ->
             (0 < tickets_closed s)%Z /\
             lo <= avg_resolution_time s /\ avg_resolution_time s <= hi) ->
  lo * inject_Z (Zsum (List.map tickets_closed rows))
  <= Qsum (List.map to_real (List.map weighted rows)) /\
  Qsum (List.map to_real (List.map weighted rows))
  <= hi * inject_Z (Zsum (List.map tickets_closed rows)).
Proof.
  induction rows as [|s rows IH]; intros Hrows.
  - simpl. split; ring_simplify; apply Qle_refl.
  - destruct (Hrows s (or_introl eq_refl)) as (Hc & Hlo & Hhi).
    destruct IH as [IHlo IHhi]; [intros s' Hs'; apply Hrows; now right|].
    assert (Hw : 0 <= inject_Z (tickets_closed s))
      by (rewrite <- (Zle_Qle 0); lia).
    pose proof (Qmult_le_compat_r _ _ _ Hlo Hw) as Hl.
    pose proof (Qmult_le_compat_r _ _ _ Hhi Hw) as Hh.
    cbn [List.map Zsum Qsum].
    rewrite inject_Z_plus.
    change (to_real (weighted s))
      with (avg_resolution_time s * inject_Z (tickets_closed s)).
    split; lra.
Qed.

Lemma fold_Qmin_le (l : list Q) :
  forall a, fold_left Qmin l a <= a /\
            forall x, In x l -> fold_left Qmin l a <= x.
Proof.
  induction l as [|y l IH]; intros a; simpl.
  - split; [apply Qle_refl | intros x []].
  - destruct (IH (Qmin a y)) as [Ha Hl]. split.
    + eapply Qle_trans; [exact Ha | apply Q.le_min_l].
    + intros x [<- | Hx]; [|now apply Hl].
      eapply Qle_trans; [exact Ha | apply Q.le_min_r].
Qed.

Lemma fold_Qmax_ge (l : list Q) :
  forall a, a <= fold_left Qmax l a /\
            forall x, In x l -> x <= fold_left Qmax l a.
Proof.
  induction l as [|y l IH]; intros a; simpl.
  - split; [apply Qle_refl | intros x []].
  - destruct (IH (Qmax a y)) as [Ha Hl]. split.
    + eapply Qle_trans; [apply Q.le_max_l | exact Ha].
    + intros x [<- | Hx]; [|now apply Hl].
      eapply Qle_trans; [apply Q.le_max_r | exact Ha].
Qed.

Lemma Qmin_list_le (l : list Q) (x : Q) : In x l -> Qmin_list l <= x.
Proof.
  destruct l as [|a l]; [intros []|]. simpl.
  destruct (fold_Qmin_le l a) as [Ha Hl].
  intros [<- | Hx]; [exact Ha | now apply Hl].
Qed.

Lemma Qmax_list_ge (l : list Q) (x : Q) : In x l -> x <= Qmax_list l.
Proof.
  destruct l as [|a l]; [intros []|]. simpl.
  destruct (fold_Qmax_ge l a) as [Ha Hl].
  intros [<- | Hx]; [exact Ha | now apply Hl].
Qed.


(** C7, in exact arithmetic: when some row of the window closed
    tickets, the total is produced and its weighted average lies between
    the least and the greatest [avg_resolution_time] of the rows with
    [tickets_closed > 0], both included. *)
Theorem exact_weighted_avg_within_extremes ticket_stats :
  (exists s, In s ticket_stats /\ (0 < tickets_closed s)%Z) ->
  within_extremes_exact ticket_stats.
Proof.
  intros Hsome.
  destruct (tickets_total_with_closed _ Hsome) as (W & HW & Hpos & Htotal).
  set (rows := List.filter has_closed ticket_stats) in *.
  set (S := Zsum (List.map tickets_closed rows)) in *.
  destruct (weighted_sum_bounds
              (Qmin_list (closing_times ticket_stats))
              (Qmax_list (closing_times ticket_stats)) rows) as [Hlo Hhi].
  { intros s Hs. split.
    - apply filter_In in Hs as [_ Hs]. now apply has_closed_iff.
    - split; [apply Qmin_list_le | apply Qmax_list_ge];
        unfold closing_times; now apply in_map. }
  fold S in Hlo, Hhi.
  assert (HWsum : W == Qsum (List.map to_real (List.map weighted rows))).
  { rewrite <- sum_of_exact, HW. reflexivity. }
  rewrite <- HWsum in Hlo, Hhi.
  assert (HS : 0 < inject_Z S) by (rewrite <- (Zlt_Qlt 0); exact Hpos).
  eexists. exists (W / inject_Z S). split; [exact Htotal|].
  split; [reflexivity|]. split.
  - now apply Qle_shift_div_l.
  - now apply Qle_shift_div_r.
Qed.

End Exact.


Lemma exact_weighted_avg_within_extremes_example :
  within_extremes_exact example_window.
Proof.
  apply (exact_weighted_avg_within_extremes example_window).
  exists {| date := 2; tickets_opened := 10; tickets_closed := 8;
            avg_resolution_time := 5%Q |}.
  split; [left; reflexivity | reflexivity].
Defined.

(** ** The access gate *)

Section Gate.
Context {A : Type} `{PyReal A}.
Variables (env : environ) (db : database A) (outage : nat -> bool).

Lemma require_api_key_pass (f : M (response A)) (req : request) :
  x_api_key req = API_KEY env -> require_api_key env f req = f.
Proof.
  intros Heq. unfold require_api_key.
  rewrite bool_decide_eq_false_2; [reflexivity | now intros Hne].
Qed.

Lemma require_api_key_reject (f : M (response A)) (req : request) :
  x_api_key req <> API_KEY env ->
  require_api_key env f req = ret (jsonify_error "Unauthorized" 401).
Proof.
  intros Hne. unfold require_api_key.
  now rewrite bool_decide_eq_true_2.
Qed.

(** C8: when the gate's check fails, each of the three reporting
    endpoints answers 401 Unauthorized and the trace of store calls is
    empty: no connection was opened and no statement executed. *)
Theorem gate_rejects_before_store (req : request) (guild_id : string) :
  x_api_key req <> API_KEY env ->
  run (guild_stats env db outage req guild_id)
  = (Ok (jsonify_error "Unauthorized" 401), []) /\
  run (list_licenses env db outage req)
  = (Ok (jsonify_error "Unauthorized" 401), []) /\
  run (list_servers env db outage req)
  = (Ok (jsonify_error "Unauthorized" 401), []).
Proof.
  intros Hne. unfold run, guild_stats, list_licenses, list_servers.
  rewrite !require_api_key_reject by assumption.
  repeat split.
Qed.

(** C9: with API_KEY unset and no X-API-Key header the comparison
    [None != None] is false, so the decorated function is the handler
    itself; and whatever the configuration, a request whose header equals
    the configured value is never rejected by the gate. *)
Theorem unset_key_admits_missing_header (f : M (response A)) (req : request) :
  API_KEY env = None ->
  x_api_key req = None ->
  bool_decide (x_api_key req <> API_KEY env) = false /\
  require_api_key env f req = f /\
  (forall (env' : environ) (req' : request),
      x_api_key req' = API_KEY env' -> require_api_key env' f req' = f).
Proof.
  intros Hkey Hheader.
  assert (Heq : x_api_key req = API_KEY env) by congruence.
  split; [|split].
  - apply bool_decide_eq_false_2. now intros Hne.
  - now apply require_api_key_pass.
  - intros env' req' Heq'. unfold require_api_key.
    rewrite bool_decide_eq_false_2; [reflexivity | now intros Hne].
Qed.

(** C3: when the request passes the gate, the connection and the lookup
    succeed, and the lookup finds no row for the guild id, the answer is
    404 "Guild not found" and the store saw the connection and that one
    statement, nothing else. *)
Theorem unknown_guild_is_not_found (req : request) (guild_id dsn : string) :
  x_api_key req = API_KEY env ->
  DATABASE_URL env = Some dsn ->
  outage 0%nat = false ->
  outage 1%nat = false ->
  select_guild_info db guild_id = None ->
  run (guild_stats env db outage req guild_id)
  = (Ok (jsonify_error "Guild not found" 404),
     [Connect dsn; Execute (SelectGuildInfo guild_id)]).
Proof.
  intros Hauth Hdsn H0 H1 Hnone.
  unfold run, guild_stats. rewrite require_api_key_pass by assumption.
  unfold guild_stats_body, try_except, bind, get_db_connection, store_call.
  unfold connection_string. rewrite Hdsn. cbn [List.length app].
  rewrite H0. cbn [List.length app].
  rewrite H1, Hnone. reflexivity.
Qed.

End Gate.

Lemma gate_rejects_before_store_example :
  run (guild_stats sample_env sample_db healthy without_key "g1")
  = (Ok (jsonify_error "Unauthorized" 401), []) /\
  run (list_licenses sample_env sample_db healthy without_key)
  = (Ok (jsonify_error "Unauthorized" 401), []) /\
  run (list_servers sample_env sample_db healthy without_key)
  = (Ok (jsonify_error "Unauthorized" 401), []).
Proof.
  apply (gate_rejects_before_store sample_env sample_db healthy without_key "g1").
  discriminate.
Defined.

Lemma unset_key_admits_missing_header_example :
  bool_decide (x_api_key without_key <> API_KEY keyless_env) = false /\
  require_api_key keyless_env (list_licenses_body keyless_env sample_db healthy)
                  without_key
  = list_licenses_body keyless_env sample_db healthy /\
  (forall (env' : environ) (req' : request),
      x_api_key req' = API_KEY env' ->
      require_api_key env' (list_licenses_body keyless_env sample_db healthy) req'
      = list_licenses_body keyless_env sample_db healthy).
Proof.
  apply (unset_key_admits_missing_header keyless_env
           (list_licenses_body keyless_env sample_db healthy) without_key);
    reflexivity.
Defined.

Lemma unknown_guild_is_not_found_example :
  run (guild_stats sample_env sample_db healthy with_key "nowhere")
  = (Ok (jsonify_error "Guild not found" 404),
     [Connect "postgres://db"; Execute (SelectGuildInfo "nowhere")]).
Proof.
  apply (unknown_guild_is_not_found sample_env sample_db healthy with_key
           "nowhere" "postgres://db"); reflexivity.
Defined.

(** ** GROUP BY rating: groups and their sizes *)

Lemma In_insert_distinct (z x : Z) (l : list Z) :
  In x (insert_distinct z l) <-> x = z \/ In x l.
Proof.
  induction l as [|y l IH]; simpl.
  - intuition.
  - destruct (Z.ltb_spec z y); [simpl; intuition|].
    destruct (Z.eqb_spec z y) as [->|Hne]; simpl; [intuition|].
    rewrite IH. intuition.
Qed.

Lemma In_distinct_asc (x : Z) (l : list Z) : In x (distinct_asc l) <-> In x l.
Proof.
  induction l as [|y l IH]; simpl; [reflexivity|].
  rewrite In_insert_distinct, IH. intuition.
Qed.

Lemma insert_distinct_sorted (z : Z) (l : list Z) :
  StronglySorted Z.lt l -> StronglySorted Z.lt (insert_distinct z l).
Proof.
  induction 1 as [|y l Hl IH Hy]; simpl.
  - repeat constructor.
  - destruct (Z.ltb_spec z y) as [Hlt|Hge].
    + constructor; [now constructor|].
      constructor; [assumption|].
      eapply List.Forall_impl; [|exact Hy]. intros; simpl in *; lia.
    + destruct (Z.eqb_spec z y) as [->|Hne]; [now constructor|].
      constructor; [assumption|].
      apply List.Forall_forall. intros x Hx.
      apply In_insert_distinct in Hx as [->|Hx]; [lia|].
      rewrite List.Forall_forall in Hy. now apply Hy.
Qed.

Lemma distinct_asc_sorted (l : list Z) : StronglySorted Z.lt (distinct_asc l).
Proof.
  induction l as [|y l IH]; simpl; [constructor|].
  now apply insert_distinct_sorted.
Qed.

Lemma sorted_NoDup (l : list Z) : StronglySorted Z.lt l -> List.NoDup l.
Proof.
  induction 1 as [|y l Hl IH Hy]; constructor; [|assumption].
  intros Hin. rewrite List.Forall_forall in Hy. specialize (Hy y Hin). lia.
Qed.

Lemma group_size_cons (r a : Z) (l : list Z) :
  group_size r (a :: l) = (if r =? a then 1 else 0) + group_size r l.
Proof.
  unfold group_size. simpl. destruct (r =? a); simpl; lia.
Qed.

Lemma group_size_positive (r : Z) (l : list Z) : In r l -> 0 < group_size r l.
Proof.
  induction l as [|a l IH]; intros Hin; [destruct Hin|].
  rewrite group_size_cons.
  assert (0 <= group_size r l) by (unfold group_size; lia).
  destruct Hin as [->|Hin].
  - rewrite Z.eqb_refl. lia.
  - specialize (IH Hin). destruct (r =? a); lia.
Qed.

Lemma Zsum_map_add {X : Type} (f g : X -> Z) (l : list X) :
  Zsum (List.map (fun x => f x + g x) l)
  = Zsum (List.map f l) + Zsum (List.map g l).
Proof. induction l as [|x l IH]; simpl; lia. Qed.

Lemma Zsum_indicator_absent (a : Z) (keys : list Z) :
  ~ In a keys -> Zsum (List.map (fun r => if r =? a then 1 else 0) keys) = 0.
Proof.
  induction keys as [|k keys IH]; intros Hnot; simpl; [reflexivity|].
  destruct (Z.eqb_spec k a) as [->|Hne]; [exfalso; apply Hnot; now left|].
  rewrite IH; [reflexivity | intros Hin; apply Hnot; now right].
Qed.

Lemma Zsum_indicator_present (a : Z) (keys : list Z) :
  List.NoDup keys -> In a keys ->
  Zsum (List.map (fun r => if r =? a then 1 else 0) keys) = 1.
Proof.
  induction 1 as [|k keys Hk Hnd IH]; intros Hin; [destruct Hin|]. simpl.
  destruct (Z.eqb_spec k a) as [->|Hne].
  - rewrite Zsum_indicator_absent by assumption. reflexivity.
  - destruct Hin as [->|Hin]; [congruence|]. now rewrite IH.
Qed.

(** The sizes of the groups add up to the number of rows. *)
Lemma group_sizes_add_up (keys l : list Z) :
  List.NoDup keys -> (forall x, In x l -> In x keys) ->
  Zsum (List.map (fun r => group_size r l) keys) = Z.of_nat (List.length l).
Proof.
  intros Hnd. induction l as [|a l IH]; intros Hall.
  - clear. induction keys as [|k keys IH]; simpl; [reflexivity|].
    rewrite IH. reflexivity.
  - rewrite (map_ext _ (fun r => (if r =? a then 1 else 0) + group_size r l))
      by (intros; apply group_size_cons).
    rewrite Zsum_map_add, IH by (intros x Hx; apply Hall; now right).
    rewrite Zsum_indicator_present; [|assumption | apply Hall; now left].
    cbn [List.length]. lia.
Qed.

Section Feedback.
Context {A : Type} `{PyReal A}.
Variables (env : environ) (db : database A) (outage : nat -> bool).

(** The two feedback statements agree on any one content of the table:
    no group is empty and the group sizes add up to COUNT( * ). *)
Lemma distribution_rows_counts (guild_id : string) :
  List.Forall (fun row => snd row <> 0)
              (select_feedback_distribution db guild_id) /\
  Zsum (List.map snd (select_feedback_distribution db guild_id))
  = fst (select_feedback_overall db guild_id).
Proof.
  unfold select_feedback_distribution, select_feedback_overall.
  set (ratings := ratings_of db guild_id). split.
  - apply List.Forall_forall. intros row Hrow.
    apply in_map_iff in Hrow as (r & <- & Hr). simpl.
    rewrite In_distinct_asc in Hr.
    pose proof (group_size_positive r ratings Hr). lia.
  - rewrite map_map. simpl.
    apply group_sizes_add_up.
    + apply sorted_NoDup, distinct_asc_sorted.
    + intros x Hx. now apply In_distinct_asc.
Qed.

(** What a 200 answer of guild_stats is made of. *)
Lemma guild_stats_report (req : request) (guild_id : string)
    (r : guild_report A) (tr : list event) :
  run (guild_stats env db outage req guild_id)
  = (Ok (jsonify (JGuildReport r)), tr) ->
  daily r = List.map row_to_dict_stat (select_ticket_stats db guild_id) /\
  tickets_total (daily r) = Ok (tickets_total_of r) /\
  overall r = row_to_dict_overall (select_feedback_overall db guild_id) /\
  distribution r
  = List.map row_to_dict_count (select_feedback_distribution db guild_id).
Proof.
  unfold run, guild_stats, require_api_key, guild_stats_body, try_except,
    bind, get_db_connection, store_call, lift, ret, raise, jsonify,
    jsonify_error.
  intros Hrun.
  destruct (bool_decide _); [discriminate|].
  cbn [List.length app] in Hrun.
  destruct (outage 0%nat); [discriminate|].
  cbn [List.length app] in Hrun.
  destruct (outage 1%nat); [discriminate|].
  destruct (select_guild_info db guild_id) as [[server_name owner_name]|];
    [|discriminate].
  cbn [List.length app] in Hrun.
  destruct (outage 2%nat); [discriminate|].
  cbn [List.length app] in Hrun.
  destruct (outage 3%nat); [discriminate|].
  cbn [List.length app] in Hrun.
  destruct (outage 4%nat); [discriminate|].
  cbn [List.length app] in Hrun.
  destruct (outage 5%nat); [discriminate|].
  destruct (tickets_total _) as [t|e] eqn:Htotal; [|discriminate].
  injection Hrun as <- _. simpl. repeat split. exact Htotal.
Qed.

(** C5: in every report guild_stats returns, no entry of the rating
    distribution has count 0, and the counts add up to the [total] of
    the overall feedback summary. *)
Theorem distribution_counts_match_total (req : request) (guild_id : string)
    (r : guild_report A) (tr : list event) :
  run (guild_stats env db outage req guild_id)
  = (Ok (jsonify (JGuildReport r)), tr) ->
  List.Forall (fun rc => count rc <> 0) (distribution r) /\
  Zsum (List.map count (distribution r)) = total (overall r).
Proof.
  intros Hrun.
  destruct (guild_stats_report _ _ _ _ Hrun) as (_ & _ & -> & ->).
  destruct (distribution_rows_counts guild_id) as [Hnz Hsum].
  split.
  - apply List.Forall_forall. intros rc Hrc.
    apply in_map_iff in Hrc as (row & <- & Hrow).
    rewrite List.Forall_forall in Hnz. exact (Hnz row Hrow).
  - rewrite map_map. exact Hsum.
Qed.

End Feedback.

Lemma sample_report_returned :
  run (guild_stats sample_env sample_db healthy with_key "g1")
  = (Ok (jsonify (JGuildReport sample_report)), sample_report_trace).
Proof. vm_compute. reflexivity. Qed.

Lemma distribution_counts_match_total_example :
  List.Forall (fun rc => count rc <> 0) (distribution sample_report) /\
  Zsum (List.map count (distribution sample_report))
  = total (overall sample_report).
Proof.
  apply (distribution_counts_match_total sample_env sample_db healthy with_key
           "g1" sample_report sample_report_trace).
  vm_compute. reflexivity.
Defined.

(** ** The server listing *)

Lemma In_insert_desc {X : Type} (key : X -> Z) (x y : X) (l : list X) :
  In y (insert_desc key x l) <-> y = x \/ In y l.
Proof.
  induction l as [|z l IH]; simpl.
  - intuition.
  - destruct (key z <=? key x); simpl; [intuition|].
    rewrite IH. intuition.
Qed.

Lemma In_order_by_desc {X : Type} (key : X -> Z) (y : X) (l : list X) :
  In y (order_by_desc key l) <-> In y l.
Proof.
  induction l as [|x l IH]; simpl; [reflexivity|].
  rewrite In_insert_desc, IH. intuition.
Qed.

Lemma length_insert_desc {X : Type} (key : X -> Z) (x : X) (l : list X) :
  List.length (insert_desc key x l) = Datatypes.S (List.length l).
Proof.
  induction l as [|z l IH]; simpl; [reflexivity|].
  destruct (key z <=? key x); simpl; [reflexivity | now rewrite IH].
Qed.

Lemma length_order_by_desc {X : Type} (key : X -> Z) (l : list X) :
  List.length (order_by_desc key l) = List.length l.
Proof.
  induction l as [|x l IH]; simpl; [reflexivity|].
  now rewrite length_insert_desc, IH.
Qed.

(** [SUM(col) or 0] is the sum of the column, 0 when there is no row. *)
Lemma py_or_sql_sum (col : list Z) :
  py_or (sql_sum col) (VInt 0) = VInt (Zsum col).
Proof.
  destruct col as [|z col]; [reflexivity|].
  unfold py_or, sql_sum, truthy.
  destruct (Z.eqb_spec (Zsum (z :: col)) 0) as [->|Hne]; reflexivity.
Qed.

Section Servers.
Context {A : Type} `{PyReal A}.
Variables (env : environ) (db : database A) (outage : nat -> bool).

Lemma enrich_appends (rows : list server_row) :
  forall servers tr out tr',
    enrich db outage rows servers tr = (Ok out, tr') ->
    out = servers ++ List.map (listed_server db) rows.
Proof.
  induction rows as [|row rows IH]; intros servers tr out tr' Hrun.
  - injection Hrun as <- _. simpl. now rewrite app_nil_r.
  - cbn [enrich] in Hrun. unfold bind at 1, store_call in Hrun.
    destruct (outage (List.length tr)); [discriminate|].
    apply IH in Hrun. rewrite Hrun, <- app_assoc. reflexivity.
Qed.

(** What a 200 answer of list_servers is made of. *)
Lemma list_servers_result (req : request)
    (servers : list (gmap string value)) (tr : list event) :
  run (list_servers env db outage req) = (Ok (jsonify (JServers servers)), tr) ->
  servers = List.map (listed_server db) (select_servers db).
Proof.
  unfold run, list_servers, require_api_key, list_servers_body, try_except,
    get_db_connection, jsonify, jsonify_error.
  intros Hrun.
  destruct (bool_decide _); [discriminate|].
  unfold bind at 1 in Hrun.
  unfold store_call at 1 in Hrun. cbn [List.length app] in Hrun.
  destruct (outage 0%nat); [discriminate|].
  unfold bind at 1, store_call at 1 in Hrun. cbn [List.length app] in Hrun.
  destruct (outage 1%nat); [discriminate|].
  unfold bind at 1 in Hrun.
  destruct (enrich db outage (select_servers db) [] _) as [[out|e] tr1] eqn:He;
    [|discriminate].
  apply enrich_appends in He. simpl in He. subst out.
  unfold bind, store_call, ret in Hrun.
  destruct (outage (List.length tr1)); [discriminate|].
  now injection Hrun as <- _.
Qed.

Lemma listed_lookup (row : server_row) :
  let '(guild_id, _, _, _, _, _, license_key) := row in
  listed_server db row !! "guild_id" = Some (VStr guild_id) /\
  listed_server db row !! "license_key" = Some (VStr license_key) /\
  listed_server db row !! "tickets_opened"
  = Some (VInt (Zsum (List.map ts_tickets_opened (stats_of db guild_id)))) /\
  listed_server db row !! "tickets_closed"
  = Some (VInt (Zsum (List.map ts_tickets_closed (stats_of db guild_id)))).
Proof.
  destruct row as [[[[[[guild_id server_name] owner_id] owner_name]
                       activated_at] active] license_key].
  unfold listed_server, with_ticket_sums, server_of_row, select_ticket_sums.
  cbn [row_guild_id fst snd]. rewrite !py_or_sql_sum.
  split; [|split; [|split]].
  - rewrite !lookup_insert_ne by discriminate. apply lookup_insert_eq.
  - rewrite !lookup_insert_ne by discriminate. apply lookup_insert_eq.
  - rewrite lookup_insert_ne by discriminate. apply lookup_insert_eq.
  - apply lookup_insert_eq.
Qed.

(** A fetched row comes from a guild row and a license row that agree
    on the key id. *)
Lemma select_servers_joined (row : server_row) :
  In row (select_servers db) ->
  exists a l,
    In a (activated_servers db) /\ In l (license_keys db) /\
    srv_key_id a = Some (key_id l) /\
    row = (srv_guild_id a, srv_server_name a, srv_owner_id a,
           srv_owner_name a, srv_activated_at a, srv_active a, key_value l).
Proof.
  unfold select_servers. intros Hrow.
  apply in_map_iff in Hrow as ([a l] & <- & Hal).
  rewrite In_order_by_desc in Hal. unfold joined in Hal.
  apply in_flat_map in Hal as (a' & Ha' & Hal).
  apply in_map_iff in Hal as (l' & [= <- <-] & Hl').
  apply filter_In in Hl' as [Hl' Hmatch].
  exists a', l'. repeat split; try assumption.
  unfold key_matches in Hmatch.
  destruct (srv_key_id a') as [k|]; [|discriminate].
  apply Z.eqb_eq in Hmatch. now subst.
Qed.

(** C4: every server dict of a list_servers answer has the keys
    [tickets_opened] and [tickets_closed], both bound to an int (the
    all-time sums of the guild's rows); for a guild without any row in
    ticket_stats both are 0. *)
Theorem listed_servers_have_ticket_fields (req : request)
    (servers : list (gmap string value)) (tr : list event) :
  run (list_servers env db outage req) = (Ok (jsonify (JServers servers)), tr) ->
  List.Forall
    (fun server : gmap string value =>
       exists (guild_id : string) (o c : Z),
         server !! "guild_id" = Some (VStr guild_id) /\
         server !! "tickets_opened" = Some (VInt o) /\
         server !! "tickets_closed" = Some (VInt c) /\
         (stats_of db guild_id = [] -> o = 0 /\ c = 0))
    servers.
Proof.
  intros Hrun. rewrite (list_servers_result _ _ _ Hrun).
  apply List.Forall_forall. intros server Hserver.
  apply in_map_iff in Hserver as (row & <- & _).
  pose proof (listed_lookup row) as Hrow.
  destruct row as [[[[[[guild_id server_name] owner_id] owner_name]
                       activated_at] active] license_key].
  destruct Hrow as (Hg & _ & Ho & Hc).
  exists guild_id,
    (Zsum (List.map ts_tickets_opened (stats_of db guild_id))),
    (Zsum (List.map ts_tickets_closed (stats_of db guild_id))).
  split; [exact Hg|]. split; [exact Ho|]. split; [exact Hc|].
  intros ->. split; reflexivity.
Qed.

(** C10: every server dict of a list_servers answer is built from a
    guild row and a license row with the same key id and carries that
    license's [key_value]; a guild whose [key_id] matches no license (and
    whose guild id is not shared with another row) is in no dict of the
    answer, which has one dict for each matching pair of rows. *)
Theorem listed_servers_are_licensed (req : request)
    (servers : list (gmap string value)) (tr : list event)
    (g : activated_server) :
  run (list_servers env db outage req) = (Ok (jsonify (JServers servers)), tr) ->
  In g (activated_servers db) ->
  (forall l, In l (license_keys db) -> srv_key_id g <> Some (key_id l)) ->
  (forall a, In a (activated_servers db) ->
             srv_guild_id a = srv_guild_id g -> a = g) ->
  List.Forall
    (fun server : gmap string value =>
       exists a l,
         In a (activated_servers db) /\ In l (license_keys db) /\
         srv_key_id a = Some (key_id l) /\
         server !! "guild_id" = Some (VStr (srv_guild_id a)) /\
         server !! "license_key" = Some (VStr (key_value l)))
    servers /\
  List.Forall
    (fun server : gmap string value =>
       server !! "guild_id" <> Some (VStr (srv_guild_id g)))
    servers /\
  List.length servers = List.length (joined db).
Proof.
  intros Hrun Hg Hnokey Hid. rewrite (list_servers_result _ _ _ Hrun).
  assert (Hall : forall server,
             In server (List.map (listed_server db) (select_servers db)) ->
             exists a l,
               In a (activated_servers db) /\ In l (license_keys db) /\
               srv_key_id a = Some (key_id l) /\
               server !! "guild_id" = Some (VStr (srv_guild_id a)) /\
               server !! "license_key" = Some (VStr (key_value l))).
  { intros server Hserver.
    apply in_map_iff in Hserver as (row & <- & Hrow).
    destruct (select_servers_joined row Hrow) as (a & l & Ha & Hl & Hk & ->).
    exists a, l. repeat split; try assumption;
      apply (listed_lookup (srv_guild_id a, srv_server_name a, srv_owner_id a,
                            srv_owner_name a, srv_activated_at a,
                            srv_active a, key_value l)). }
  split; [|split]; [apply List.Forall_forall; intros server Hserver ..|].
  - now apply Hall.
  - destruct (Hall server Hserver) as (a & l & Ha & Hl & Hk & Hgid & _).
    rewrite Hgid. intros [= Hsame].
    apply (Hid a Ha) in Hsame. subst a. exact (Hnokey l Hl Hk).
  - unfold select_servers.
    now rewrite !length_map, length_order_by_desc.
Qed.

(** With the store up, the listing is produced: one statement for the
    join, one per fetched row, and the close. *)
Lemma enrich_healthy (rows : list server_row) :
  (forall n, outage n = false) ->
  forall servers tr,
    enrich db outage rows servers tr
    = (Ok (servers ++ List.map (listed_server db) rows),
       tr ++ List.map (fun row => Execute (SelectTicketSums (row_guild_id row)))
                      rows).
Proof.
  intros Hup. induction rows as [|row rows IH]; intros servers tr.
  - simpl. unfold ret. now rewrite !app_nil_r.
  - cbn [enrich]. unfold bind at 1, store_call. rewrite Hup, IH.
    cbn [List.map]. now rewrite <- !app_assoc.
Qed.

Lemma list_servers_healthy (req : request) (dsn : string) :
  x_api_key req = API_KEY env ->
  DATABASE_URL env = Some dsn ->
  (forall n, outage n = false) ->
  run (list_servers env db outage req)
  = (Ok (jsonify (JServers (List.map (listed_server db) (select_servers db)))),
     [Connect dsn; Execute SelectServers]
     ++ List.map (fun row => Execute (SelectTicketSums (row_guild_id row)))
                 (select_servers db)
     ++ [Close]).
Proof.
  intros Hauth Hdsn Hup.
  unfold run, list_servers. rewrite require_api_key_pass by assumption.
  unfold list_servers_body, try_except, get_db_connection.
  unfold connection_string. rewrite Hdsn.
  unfold bind at 1, store_call at 1. rewrite Hup.
  unfold bind at 1, store_call at 1. rewrite Hup.
  unfold bind at 1. rewrite enrich_healthy by assumption.
  unfold bind, store_call, ret. rewrite Hup.
  cbn [app]. reflexivity.
Qed.

End Servers.

Lemma sample_servers_returned :
  run (list_servers sample_env sample_db healthy with_key)
  = (Ok (jsonify (JServers sample_servers)), sample_servers_trace).
Proof. vm_compute. reflexivity. Qed.

Lemma listed_servers_have_ticket_fields_example :
  List.Forall
    (fun server : gmap string value =>
       exists (guild_id : string) (o c : Z),
         server !! "guild_id" = Some (VStr guild_id) /\
         server !! "tickets_opened" = Some (VInt o) /\
         server !! "tickets_closed" = Some (VInt c) /\
         (stats_of sample_db guild_id = [] -> o = 0 /\ c = 0))
    sample_servers.
Proof.
  apply (listed_servers_have_ticket_fields sample_env sample_db healthy with_key
           sample_servers sample_servers_trace).
  vm_compute. reflexivity.
Defined.

Lemma listed_servers_are_licensed_example :
  List.Forall
    (fun server : gmap string value =>
       exists a l,
         In a (activated_servers sample_db) /\ In l (license_keys sample_db) /\
         srv_key_id a = Some (key_id l) /\
         server !! "guild_id" = Some (VStr (srv_guild_id a)) /\
         server !! "license_key" = Some (VStr (key_value l)))
    sample_servers /\
  List.Forall
    (fun server : gmap string value =>
       server !! "guild_id" <> Some (VStr (srv_guild_id unlicensed_guild)))
    sample_servers /\
  List.length sample_servers = List.length (joined sample_db).
Proof.
  apply (listed_servers_are_licensed sample_env sample_db healthy with_key
           sample_servers sample_servers_trace unlicensed_guild).
  - vm_compute. reflexivity.
  - right. left. reflexivity.
  - intros l [<- | [<- | []]]; discriminate.
  - intros a [<- | [<- | [<- | []]]]; (reflexivity || discriminate).
Defined.

(** * Further properties *)

(** ** row_to_dict *)

Section RowToDict.
Context {V : Type}.
Implicit Types (d : gmap string V) (l : list (string * V)).

Lemma fold_insert_other l : forall d (k : string),
  List.Forall (fun kv => fst kv <> k) l ->
  fold_left (fun d kv => <[fst kv := snd kv]> d) l d !! k = d !! k.
Proof.
  induction l as [|[k' v'] l IH]; intros d k Hl; simpl; [reflexivity|].
  inversion Hl as [|? ? Hk Hl']; subst. simpl in Hk.
  rewrite IH by assumption. now apply lookup_insert_ne.
Qed.

Lemma fold_insert_last l1 l2 d (k : string) (v : V) :
  List.Forall (fun kv => fst kv <> k) l2 ->
  fold_left (fun d kv => <[fst kv := snd kv]> d) (l1 ++ (k, v) :: l2) d !! k
  = Some v.
Proof.
  intros Hl2. rewrite fold_left_app. simpl.
  rewrite fold_insert_other by assumption. apply lookup_insert_eq.
Qed.

Lemma fold_insert_dom l : forall d,
  dom (fold_left (fun d kv => <[fst kv := snd kv]> d) l d)
  = dom d ∪ list_to_set (List.map fst l).
Proof.
  induction l as [|[k v] l IH]; intros d; simpl.
  - now rewrite (right_id_L ∅ (∪)).
  - rewrite IH, dom_insert_L, (comm_L (∪) {[k]} (dom d)).
    now rewrite (assoc_L (∪)).
Qed.

Lemma fst_zip_take (description : list string) : forall (row : list V),
  List.map fst (zip description row) = take (List.length row) description.
Proof.
  induction description as [|k description IH]; intros [|v row]; simpl;
    try reflexivity.
  now rewrite IH.
Qed.

(** X1: the value of a key of the dict is the value of the last column of
    the row that carries that name (with distinct names: of the column of
    that name). *)
Theorem row_to_dict_lookup (description : list string) (row : list V)
    (i : nat) (k : string) (v : V) :
  description !! i = Some k ->
  row !! i = Some v ->
  (forall j, (i < j)%nat -> (j < List.length row)%nat ->
             description !! j <> Some k) ->
  row_to_dict description row !! k = Some v.
Proof.
  intros Hk Hv Hlast. unfold row_to_dict.
  assert (Hi : zip description row !! i = Some (k, v))
    by (rewrite lookup_zip_with, Hk; simpl; now rewrite Hv).
  rewrite <- (take_drop_middle _ _ _ Hi).
  apply fold_insert_last.
  apply List.Forall_forall. intros [k' v'] Hin. simpl. intros ->.
  apply list_elem_of_In, list_elem_of_lookup in Hin as [j Hj].
  rewrite lookup_drop, lookup_zip_with in Hj.
  destruct (description !! (S i + j)%nat) as [k''|] eqn:Hd; simplify_eq/=.
  destruct (row !! S (i + j)) as [v''|] eqn:Hr; simplify_eq/=.
  apply (Hlast (S (i + j))); [lia | | exact Hd].
  eapply lookup_lt_Some. exact Hr.
Qed.

(** X2: the keys of the dict are the names of the columns the row has a
    value for: names beyond the length of the row are missing, values
    beyond the description are dropped. *)
Theorem row_to_dict_keys (description : list string) (row : list V) :
  dom (row_to_dict description row)
  = list_to_set (take (List.length row) description).
Proof.
  unfold row_to_dict. rewrite fold_insert_dom, fst_zip_take, dom_empty_L.
  now rewrite (left_id_L ∅ (∪)).
Qed.

End RowToDict.

Lemma row_to_dict_lookup_example :
  row_to_dict repeated_columns [VStr "g1"; VInt 4; VStr "g2"] !! "guild_id"
  = Some (VStr "g2").
Proof.
  apply (row_to_dict_lookup repeated_columns [VStr "g1"; VInt 4; VStr "g2"]
           2%nat "guild_id" (VStr "g2")); [reflexivity | reflexivity |].
  intros j Hj Hlen. simpl in Hlen. lia.
Defined.

(** ** More on the totals of a window *)

Lemma Zsum_Permutation (l l' : list Z) : Permutation l l' -> Zsum l = Zsum l'.
Proof. induction 1; simpl; lia. Qed.

Lemma filter_Permutation_bool {X : Type} (f : X -> bool) (l l' : list X) :
  Permutation l l' -> Permutation (List.filter f l) (List.filter f l').
Proof.
  induction 1 as [|x l l' Hp IH|x y l|l l' l'' Hp IH Hp' IH']; simpl.
  - constructor.
  - destruct (f x); [now constructor | assumption].
  - destruct (f x), (f y); try reflexivity. apply perm_swap.
  - now transitivity (List.filter f l').
Qed.

Lemma Qsum_Permutation (l l' : list Q) :
  Permutation l l' -> (Qsum l == Qsum l')%Q.
Proof.
  induction 1 as [|x l l' Hp IH|x y l|l l' l'' Hp IH Hp' IH']; simpl.
  - reflexivity.
  - now rewrite IH.
  - ring.
  - now rewrite IH.
Qed.

Section MoreTotals.
Context {A : Type} `{PyReal A}.
Implicit Types (ticket_stats : list (stat A)) (s : stat A).

(** X3: a row with no closed ticket has no weight: with or without it,
    wherever it stands in the window, the average of the total is the
    same value. *)
Theorem row_without_closures_has_no_weight (before after : list (stat A)) s :
  tickets_closed s <= 0 ->
  total_avg_resolution_time (before ++ s :: after)
  = total_avg_resolution_time (before ++ after).
Proof.
  intros Hs.
  assert (Hskip : has_closed s = false) by (apply Z.ltb_ge; exact Hs).
  unfold total_avg_resolution_time.
  rewrite !py_sum_int_spec, !py_sum_spec, !List.filter_app.
  cbn [List.filter]. rewrite Hskip. reflexivity.
Qed.

Lemma tickets_total_fields ticket_stats (t : ticket_total A) :
  tickets_total ticket_stats = Ok t ->
  opened t = Zsum (List.map tickets_opened ticket_stats) /\
  closed t = Zsum (List.map tickets_closed ticket_stats) /\
  total_avg_resolution_time ticket_stats = Ok (total_avg t).
Proof.
  unfold tickets_total.
  destruct (total_avg_resolution_time ticket_stats) as [a|e]; [|discriminate].
  intros [= <-]. simpl. rewrite !py_sum_int_every. repeat split.
Qed.

End MoreTotals.

Lemma row_without_closures_has_no_weight_example :
  total_avg_resolution_time
    ([ {| date := 2; tickets_opened := 10; tickets_closed := 8;
          avg_resolution_time := 5%Q |} ]
     ++ {| date := 1; tickets_opened := 5; tickets_closed := 0;
           avg_resolution_time := 0%Q |} :: [])
  = total_avg_resolution_time
      ([ {| date := 2; tickets_opened := 10; tickets_closed := 8;
            avg_resolution_time := 5%Q |} ] ++ []).
Proof.
  apply (row_without_closures_has_no_weight
           [ {| date := 2; tickets_opened := 10; tickets_closed := 8;
                avg_resolution_time := 5%Q |} ] []
           {| date := 1; tickets_opened := 5; tickets_closed := 0;
              avg_resolution_time := 0%Q |}).
  simpl. lia.
Defined.

Section MoreExact.
Implicit Types (ticket_stats : list (stat Q)).
Local Open Scope Q_scope.

(** X4: in exact arithmetic the total does not depend on the order of
    the rows: two windows with the same rows give the same sums of opened
    and closed tickets and the same average. *)
Theorem exact_total_ignores_row_order ticket_stats ticket_stats' :
  Permutation ticket_stats ticket_stats' ->
  exists t t',
    tickets_total ticket_stats = Ok t /\
    tickets_total ticket_stats' = Ok t' /\
    opened t = opened t' /\ closed t = closed t' /\
    same_number (total_avg t) (total_avg t').
Proof.
  intros Hperm.
  pose proof (filter_Permutation_bool has_closed _ _ Hperm) as Hrows.
  destruct (tickets_total_defined ticket_stats) as [t Ht].
  destruct (tickets_total_defined ticket_stats') as [t' Ht'].
  exists t, t'. split; [assumption|]. split; [assumption|].
  destruct (tickets_total_fields _ _ Ht) as (Ho & Hc & Ha).
  destruct (tickets_total_fields _ _ Ht') as (Ho' & Hc' & Ha').
  split; [|split].
  - rewrite Ho, Ho'. apply Zsum_Permutation. now apply Permutation_map.
  - rewrite Hc, Hc'. apply Zsum_Permutation. now apply Permutation_map.
  - unfold total_avg_resolution_time in Ha, Ha'.
    rewrite !py_sum_int_spec, !py_sum_spec in Ha, Ha'.
    set (rows := List.filter has_closed ticket_stats) in *.
    set (rows' := List.filter has_closed ticket_stats') in *.
    assert (HS : Zsum (List.map tickets_closed rows)
                 = Zsum (List.map tickets_closed rows'))
      by (apply Zsum_Permutation; now apply Permutation_map).
    rewrite <- HS in Ha'.
    destruct (Z.ltb_spec 0 (Zsum (List.map tickets_closed rows))) as [Hpos|Hle].
    + assert (Hne : rows <> []) by (intros E; rewrite E in Hpos; simpl in Hpos; lia).
      assert (Hne' : rows' <> []).
      { intros E. rewrite E in Hrows. symmetry in Hrows.
        apply Permutation_nil in Hrows. contradiction. }
      destruct (sum_of_weighted_float rows Hne) as [W HW].
      destruct (sum_of_weighted_float rows' Hne') as [W' HW'].
      unfold py_truediv in Ha, Ha'.
      destruct (Z.eqb_spec (Zsum (List.map tickets_closed rows)) 0); [lia|].
      rewrite HW in Ha. rewrite HW' in Ha'.
      injection Ha as <-. injection Ha' as <-. simpl.
      assert (HWW : W == W').
      { change W with (to_real (PyFloat W)).
        change W' with (to_real (PyFloat W')).
        rewrite <- HW, <- HW', !sum_of_exact.
        apply Qsum_Permutation. do 2 apply Permutation_map. exact Hrows. }
      now rewrite HWW.
    + injection Ha as <-. injection Ha' as <-. reflexivity.
Qed.

End MoreExact.

Lemma exact_total_ignores_row_order_example :
  exists t t',
    tickets_total example_window = Ok t /\
    tickets_total (List.rev example_window) = Ok t' /\
    opened t = opened t' /\ closed t = closed t' /\
    same_number (total_avg t) (total_avg t').
Proof.
  apply (exact_total_ignores_row_order example_window (List.rev example_window)).
  apply Permutation_rev.
Defined.

(** ** ORDER BY ... DESC and LIMIT *)

Lemma insert_desc_sorted {X : Type} (key : X -> Z) (x : X) (l : list X) :
  StronglySorted (fun a b => key b <= key a) l ->
  StronglySorted (fun a b => key b <= key a) (insert_desc key x l).
Proof.
  induction 1 as [|y l Hl IH Hy]; simpl.
  - repeat constructor.
  - destruct (Z.leb_spec (key y) (key x)) as [Hle|Hgt].
    + constructor; [now constructor|].
      constructor; [assumption|].
      eapply List.Forall_impl; [|exact Hy]. intros z Hz. simpl in *. lia.
    + constructor; [assumption|].
      apply List.Forall_forall. intros z Hz.
      apply In_insert_desc in Hz as [->|Hz]; [lia|].
      rewrite List.Forall_forall in Hy. now apply Hy.
Qed.

Lemma order_by_desc_sorted {X : Type} (key : X -> Z) (l : list X) :
  StronglySorted (fun a b => key b <= key a) (order_by_desc key l).
Proof.
  induction l as [|x l IH]; simpl; [constructor|].
  now apply insert_desc_sorted.
Qed.

Lemma insert_desc_Permutation {X : Type} (key : X -> Z) (x : X) (l : list X) :
  Permutation (insert_desc key x l) (x :: l).
Proof.
  induction l as [|y l IH]; simpl; [reflexivity|].
  destruct (key y <=? key x); [reflexivity|].
  rewrite IH. apply perm_swap.
Qed.

Lemma order_by_desc_Permutation {X : Type} (key : X -> Z) (l : list X) :
  Permutation (order_by_desc key l) l.
Proof.
  induction l as [|x l IH]; simpl; [reflexivity|].
  rewrite insert_desc_Permutation. now constructor.
Qed.

Lemma In_firstn {X : Type} (n : nat) (l : list X) (x : X) :
  In x (List.firstn n l) -> In x l.
Proof.
  intros Hx. rewrite <- (firstn_skipn n l). apply in_or_app. now left.
Qed.

Lemma StronglySorted_firstn {X : Type} (R : X -> X -> Prop) (n : nat) :
  forall l, StronglySorted R l -> StronglySorted R (List.firstn n l).
Proof.
  induction n as [|n IH]; intros l Hl; [constructor|].
  destruct Hl as [|x l Hl Hx]; simpl; [constructor|].
  constructor; [now apply IH|].
  apply List.Forall_forall. intros y Hy.
  rewrite List.Forall_forall in Hx. apply Hx.
  now apply (In_firstn n).
Qed.

Lemma StronglySorted_across {X : Type} (R : X -> X -> Prop) (l1 l2 : list X) :
  StronglySorted R (l1 ++ l2) ->
  forall x y, In x l1 -> In y l2 -> R x y.
Proof.
  induction l1 as [|a l1 IH]; intros Hs x y Hx Hy; [destruct Hx|].
  simpl in Hs. apply StronglySorted_inv in Hs as [Hs Ha].
  destruct Hx as [->|Hx]; [|now apply IH].
  rewrite List.Forall_forall in Ha. apply Ha, in_or_app. now right.
Qed.

Lemma StronglySorted_map {X Y : Type} (f : X -> Y) (R : Y -> Y -> Prop)
    (l : list X) :
  StronglySorted (fun a b => R (f a) (f b)) l ->
  StronglySorted R (List.map f l).
Proof.
  induction 1 as [|x l Hl IH Hx]; simpl; constructor; [assumption|].
  apply List.Forall_forall. intros y Hy.
  apply in_map_iff in Hy as (z & <- & Hz).
  rewrite List.Forall_forall in Hx. now apply Hx.
Qed.

Lemma StronglySorted_unmap {X Y : Type} (f : X -> Y) (R : Y -> Y -> Prop)
    (l : list X) :
  StronglySorted R (List.map f l) ->
  StronglySorted (fun a b => R (f a) (f b)) l.
Proof.
  induction l as [|x l IH]; simpl; intros Hs; [constructor|].
  apply StronglySorted_inv in Hs as [Hs Hx].
  constructor; [now apply IH|].
  apply List.Forall_forall. intros y Hy.
  rewrite List.Forall_forall in Hx. apply Hx. now apply in_map.
Qed.

(** ** More on the guild report *)

(** A branch of a handler that answers with another status than the one
    assumed. *)
Ltac answered_otherwise Hrun :=
  cbn in Hrun; injection Hrun as <- _; discriminate.

Section Report.
Context {A : Type} `{PyReal A}.
Variables (env : environ) (db : database A) (outage : nat -> bool).

Lemma select_guild_info_none (guild_id : string) :
  select_guild_info db guild_id = None <->
  List.Forall (fun a => srv_guild_id a <> guild_id) (activated_servers db).
Proof.
  unfold select_guild_info.
  induction (activated_servers db) as [|a l IH]; simpl.
  - split; [constructor | reflexivity].
  - destruct (String.eqb_spec (srv_guild_id a) guild_id) as [Heq|Hne].
    + split; [discriminate|]. intros Hall.
      apply Forall_inv in Hall. contradiction.
    + rewrite IH. split; [now constructor | apply Forall_inv_tail].
Qed.

Lemma daily_of_report (req : request) (guild_id : string)
    (r : guild_report A) (tr : list event) :
  run (guild_stats env db outage req guild_id)
  = (Ok (jsonify (JGuildReport r)), tr) ->
  daily r
  = List.map stat_of_row
      (List.firstn 30 (order_by_desc ts_date (stats_of db guild_id))).
Proof.
  intros Hrun. destruct (guild_stats_report _ _ _ _ _ _ _ Hrun) as (-> & _).
  unfold select_ticket_stats. now rewrite map_map.
Qed.

(** X5: the daily series of a report holds the 30 most recent rows of the
    guild (all of them when there are fewer), most recent first: every
    entry is a row of the guild, and a row of the guild that is left out
    is not more recent than any entry. *)
Theorem daily_series_is_most_recent (req : request) (guild_id : string)
    (r : guild_report A) (tr : list event) :
  run (guild_stats env db outage req guild_id)
  = (Ok (jsonify (JGuildReport r)), tr) ->
  List.length (daily r) = Nat.min 30 (List.length (stats_of db guild_id)) /\
  StronglySorted (fun s s' => date s' <= date s) (daily r) /\
  List.Forall
    (fun s => exists row, In row (stats_of db guild_id) /\ s = stat_of_row row)
    (daily r) /\
  List.Forall
    (fun row => In (stat_of_row row) (daily r) \/
                List.Forall (fun s => ts_date row <= date s) (daily r))
    (stats_of db guild_id).
Proof.
  intros Hrun. rewrite (daily_of_report _ _ _ _ Hrun).
  set (sorted := order_by_desc ts_date (stats_of db guild_id)).
  assert (Hsorted : StronglySorted (fun a b => ts_date b <= ts_date a) sorted)
    by apply order_by_desc_sorted.
  assert (Hmem : forall row, In row sorted <-> In row (stats_of db guild_id))
    by (intros row; apply In_order_by_desc).
  split; [|split; [|split]].
  - rewrite length_map, length_firstn. unfold sorted.
    now rewrite length_order_by_desc.
  - apply StronglySorted_map. simpl.
    now apply StronglySorted_firstn.
  - apply List.Forall_forall. intros s Hs.
    apply in_map_iff in Hs as (row & <- & Hrow).
    exists row. split; [|reflexivity].
    apply Hmem. now apply (In_firstn 30).
  - apply List.Forall_forall. intros row Hrow.
    apply Hmem in Hrow. rewrite <- (firstn_skipn 30 sorted) in Hrow, Hsorted.
    apply in_app_or in Hrow as [Hin|Hout].
    + left. now apply in_map.
    + right. apply List.Forall_forall. intros s Hs.
      apply in_map_iff in Hs as (row' & <- & Hrow'). simpl.
      exact (StronglySorted_across _ _ _ Hsorted row' row Hrow' Hout).
Qed.

(** X6: for a guild with at most 30 rows in ticket_stats, [opened] and
    [closed] of the report's total are the sums over all rows of the guild,
    the values the server listing shows for it. *)
Theorem small_guild_totals_are_all_time (req : request) (guild_id : string)
    (r : guild_report A) (tr : list event) :
  run (guild_stats env db outage req guild_id)
  = (Ok (jsonify (JGuildReport r)), tr) ->
  (List.length (stats_of db guild_id) <= 30)%nat ->
  opened (tickets_total_of r)
  = Zsum (List.map ts_tickets_opened (stats_of db guild_id)) /\
  closed (tickets_total_of r)
  = Zsum (List.map ts_tickets_closed (stats_of db guild_id)).
Proof.
  intros Hrun Hsmall.
  pose proof (daily_of_report _ _ _ _ Hrun) as Hdaily.
  destruct (guild_stats_report _ _ _ _ _ _ _ Hrun) as (_ & Htotal & _).
  destruct (tickets_total_fields _ _ Htotal) as (-> & -> & _).
  rewrite Hdaily, firstn_all2
    by (rewrite length_order_by_desc; exact Hsmall).
  rewrite !map_map. simpl.
  split; apply Zsum_Permutation, Permutation_map, order_by_desc_Permutation.
Qed.

(** X7: for a guild without feedback the report has a feedback summary
    with [total] 0 and no average ([avg_rating] is None), and an empty
    distribution. *)
Theorem guild_without_feedback (req : request) (guild_id : string)
    (r : guild_report A) (tr : list event) :
  run (guild_stats env db outage req guild_id)
  = (Ok (jsonify (JGuildReport r)), tr) ->
  List.Forall (fun f => fb_guild_id f <> guild_id) (feedback db) ->
  total (overall r) = 0 /\
  avg_rating (overall r) = None /\
  distribution r = [].
Proof.
  intros Hrun Hnone.
  destruct (guild_stats_report _ _ _ _ _ _ _ Hrun) as (_ & _ & -> & ->).
  assert (Hratings : ratings_of db guild_id = []).
  { unfold ratings_of. induction Hnone as [|f l Hf Hl IH]; [reflexivity|].
    simpl. destruct (String.eqb_spec (fb_guild_id f) guild_id);
      [contradiction | exact IH]. }
  unfold select_feedback_overall, select_feedback_distribution.
  rewrite Hratings. repeat split.
Qed.

(** X8: the distribution of a report is in strictly ascending order of
    rating (so no rating occurs twice), the count of an entry is the number
    of feedback rows of the guild with that rating, and every rating given
    to the guild has an entry. *)
Theorem distribution_is_sorted_and_complete (req : request)
    (guild_id : string) (r : guild_report A) (tr : list event) :
  run (guild_stats env db outage req guild_id)
  = (Ok (jsonify (JGuildReport r)), tr) ->
  StronglySorted (fun rc rc' => rating rc < rating rc') (distribution r) /\
  List.Forall
    (fun rc => count rc = group_size (rating rc) (ratings_of db guild_id))
    (distribution r) /\
  List.Forall (fun x => In x (List.map rating (distribution r)))
              (ratings_of db guild_id).
Proof.
  intros Hrun.
  destruct (guild_stats_report _ _ _ _ _ _ _ Hrun) as (_ & _ & _ & ->).
  unfold select_feedback_distribution.
  set (ratings := ratings_of db guild_id).
  assert (Hmap : List.map rating
                   (List.map row_to_dict_count
                      (List.map (fun x => (x, group_size x ratings))
                                (distinct_asc ratings)))
                 = distinct_asc ratings).
  { rewrite !map_map. simpl. apply map_id. }
  split; [|split].
  - apply StronglySorted_unmap with (f := rating) (R := Z.lt).
    rewrite Hmap. apply distinct_asc_sorted.
  - apply List.Forall_forall. intros rc Hrc.
    apply in_map_iff in Hrc as (row & <- & Hrow).
    apply in_map_iff in Hrow as (x & <- & _). reflexivity.
  - rewrite Hmap. apply List.Forall_forall. intros x Hx.
    now apply In_distinct_asc.
Qed.

(** X9: guild_stats answers 404 only for a guild id that no row of
    activated_servers carries; the request had passed the gate and the
    store saw the connection and the lookup only. *)
Theorem not_found_only_for_unknown_guild (req : request) (guild_id : string)
    (resp : response A) (tr : list event) :
  run (guild_stats env db outage req guild_id) = (Ok resp, tr) ->
  status resp = 404 ->
  x_api_key req = API_KEY env /\
  List.Forall (fun a => srv_guild_id a <> guild_id) (activated_servers db) /\
  body resp = JError "Guild not found" /\
  exists dsn, tr = [Connect dsn; Execute (SelectGuildInfo guild_id)].
Proof.
  unfold run, guild_stats, require_api_key, guild_stats_body, try_except,
    bind, get_db_connection, store_call, lift, ret, raise, jsonify,
    jsonify_error.
  intros Hrun H404.
  case_bool_decide as Hauth; [answered_otherwise Hrun|].
  set (dsn := connection_string env) in Hrun.
  cbn [List.length app] in Hrun.
  destruct (outage 0%nat); [answered_otherwise Hrun|].
  cbn [List.length app] in Hrun.
  destruct (outage 1%nat); [answered_otherwise Hrun|].
  destruct (select_guild_info db guild_id) as [[server_name owner_name]|]
    eqn:Hinfo.
  - exfalso. cbn [List.length app] in Hrun.
    destruct (outage 2%nat); [answered_otherwise Hrun|].
    cbn [List.length app] in Hrun.
    destruct (outage 3%nat); [answered_otherwise Hrun|].
    cbn [List.length app] in Hrun.
    destruct (outage 4%nat); [answered_otherwise Hrun|].
    cbn [List.length app] in Hrun.
    destruct (outage 5%nat); [answered_otherwise Hrun|].
    destruct (tickets_total _); answered_otherwise Hrun.
  - injection Hrun as <- <-. split; [assumption|].
    split; [now apply select_guild_info_none|].
    split; [reflexivity | now exists dsn].
Qed.

End Report.

Lemma quiet_report_returned :
  run (guild_stats sample_env sample_db healthy with_key "g3")
  = (Ok (jsonify (JGuildReport quiet_report)), quiet_report_trace).
Proof. vm_compute. reflexivity. Qed.

Lemma daily_series_is_most_recent_example :
  List.length (daily sample_report)
  = Nat.min 30 (List.length (stats_of sample_db "g1")) /\
  StronglySorted (fun s s' => date s' <= date s) (daily sample_report) /\
  List.Forall
    (fun s => exists row, In row (stats_of sample_db "g1") /\ s = stat_of_row row)
    (daily sample_report) /\
  List.Forall
    (fun row => In (stat_of_row row) (daily sample_report) \/
                List.Forall (fun s => ts_date row <= date s)
                            (daily sample_report))
    (stats_of sample_db "g1").
Proof.
  apply (daily_series_is_most_recent sample_env sample_db healthy with_key "g1"
           sample_report sample_report_trace).
  exact sample_report_returned.
Defined.

Lemma small_guild_totals_are_all_time_example :
  opened (tickets_total_of sample_report)
  = Zsum (List.map ts_tickets_opened (stats_of sample_db "g1")) /\
  closed (tickets_total_of sample_report)
  = Zsum (List.map ts_tickets_closed (stats_of sample_db "g1")).
Proof.
  apply (small_guild_totals_are_all_time sample_env sample_db healthy with_key
           "g1" sample_report sample_report_trace).
  - exact sample_report_returned.
  - simpl. lia.
Defined.

Lemma guild_without_feedback_example :
  total (overall quiet_report) = 0 /\
  avg_rating (overall quiet_report) = None /\
  distribution quiet_report = [].
Proof.
  apply (guild_without_feedback sample_env sample_db healthy with_key "g3"
           quiet_report quiet_report_trace).
  - exact quiet_report_returned.
  - repeat constructor; discriminate.
Defined.

Lemma distribution_is_sorted_and_complete_example :
  StronglySorted (fun rc rc' => rating rc < rating rc')
                 (distribution sample_report) /\
  List.Forall
    (fun rc => count rc = group_size (rating rc) (ratings_of sample_db "g1"))
    (distribution sample_report) /\
  List.Forall (fun x => In x (List.map rating (distribution sample_report)))
              (ratings_of sample_db "g1").
Proof.
  apply (distribution_is_sorted_and_complete sample_env sample_db healthy
           with_key "g1" sample_report sample_report_trace).
  exact sample_report_returned.
Defined.

Lemma not_found_only_for_unknown_guild_example :
  x_api_key with_key = API_KEY sample_env /\
  List.Forall (fun a => srv_guild_id a <> "nowhere")
              (activated_servers sample_db) /\
  body (jsonify_error (A := Q) "Guild not found" 404)
  = JError "Guild not found" /\
  exists dsn,
    [Connect "postgres://db"; Execute (SelectGuildInfo "nowhere")]
    = [Connect dsn; Execute (SelectGuildInfo "nowhere")].
Proof.
  apply (not_found_only_for_unknown_guild sample_env sample_db healthy with_key
           "nowhere" (jsonify_error "Guild not found" 404)
           [Connect "postgres://db"; Execute (SelectGuildInfo "nowhere")]);
    reflexivity.
Defined.

(** ** The license listing *)

Section Licenses.
Context {A : Type} `{PyReal A}.
Variables (env : environ) (db : database A) (outage : nat -> bool).

(** X11: a license listing holds every row of license_keys exactly once,
    whole ([key_value] included), most recently created first; the store
    saw the connection, the one statement and the close. *)
Theorem license_listing_is_whole_table (req : request)
    (licenses : list license_key) (tr : list event) :
  run (list_licenses env db outage req)
  = (Ok (jsonify (JLicenses licenses)), tr) ->
  Permutation licenses (license_keys db) /\
  StronglySorted (fun l l' => created_at l' <= created_at l) licenses /\
  exists dsn, tr = [Connect dsn; Execute SelectLicenses; Close].
Proof.
  unfold run, list_licenses, require_api_key, list_licenses_body, try_except,
    bind, get_db_connection, store_call, ret, raise, jsonify, jsonify_error.
  intros Hrun.
  destruct (bool_decide _); [discriminate|].
  set (dsn := connection_string env) in Hrun.
  cbn [List.length app] in Hrun.
  destruct (outage 0%nat); [discriminate|].
  cbn [List.length app] in Hrun.
  destruct (outage 1%nat); [discriminate|].
  cbn [List.length app] in Hrun.
  destruct (outage 2%nat); [discriminate|].
  injection Hrun as <- <-. unfold select_licenses.
  split; [apply order_by_desc_Permutation|].
  split; [apply order_by_desc_sorted | now exists dsn].
Qed.

End Licenses.

Lemma sample_licenses_returned :
  run (list_licenses sample_env sample_db healthy with_key)
  = (Ok (jsonify (JLicenses (List.rev (license_keys sample_db)))),
     [Connect "postgres://db"; Execute SelectLicenses; Close]).
Proof. vm_compute. reflexivity. Qed.

Lemma license_listing_is_whole_table_example :
  Permutation (List.rev (license_keys sample_db)) (license_keys sample_db) /\
  StronglySorted (fun l l' => created_at l' <= created_at l)
                 (List.rev (license_keys sample_db)) /\
  exists dsn,
    [Connect "postgres://db"; Execute SelectLicenses; Close]
    = [Connect dsn; Execute SelectLicenses; Close].
Proof.
  apply (license_listing_is_whole_table sample_env sample_db healthy with_key
           (List.rev (license_keys sample_db))
           [Connect "postgres://db"; Execute SelectLicenses; Close]).
  exact sample_licenses_returned.
Defined.

(** ** More on the server listing *)

Lemma matching_licenses_unique (a : activated_server) (licenses : list license_key) :
  List.NoDup (List.map key_id licenses) ->
  List.length (List.filter (key_matches a) licenses)
  = if existsb (key_matches a) licenses then 1%nat else 0%nat.
Proof.
  induction licenses as [|l licenses IH]; intros Hnd; [reflexivity|].
  simpl in Hnd. apply NoDup_cons_iff in Hnd as [Hl Hnd]. simpl.
  destruct (key_matches a l) eqn:Hmatch; simpl; [|now apply IH].
  rewrite IH by assumption.
  destruct (existsb (key_matches a) licenses) eqn:Hother; [|reflexivity].
  exfalso. apply existsb_exists in Hother as (l' & Hl' & Hmatch').
  unfold key_matches in Hmatch, Hmatch'.
  destruct (srv_key_id a) as [k|]; [|discriminate].
  apply Z.eqb_eq in Hmatch, Hmatch'. apply Hl.
  rewrite <- Hmatch, Hmatch'. now apply in_map.
Qed.

Section MoreServers.
Context {A : Type} `{PyReal A}.
Variables (env : environ) (db : database A) (outage : nat -> bool).

Lemma enrich_trace (rows : list server_row) :
  forall servers tr out tr',
    enrich db outage rows servers tr = (Ok out, tr') ->
    tr' = tr ++ List.map (fun row => Execute (SelectTicketSums (row_guild_id row)))
                         rows.
Proof.
  induction rows as [|row rows IH]; intros servers tr out tr' Hrun.
  - injection Hrun as _ <-. simpl. now rewrite app_nil_r.
  - cbn [enrich] in Hrun. unfold bind at 1, store_call in Hrun.
    destruct (outage (List.length tr)); [discriminate|].
    apply IH in Hrun. rewrite Hrun, <- app_assoc. reflexivity.
Qed.

(** A 200 answer of list_servers with its trace. *)
Lemma list_servers_result_trace (req : request)
    (servers : list (gmap string value)) (tr : list event) :
  run (list_servers env db outage req) = (Ok (jsonify (JServers servers)), tr) ->
  exists dsn,
    tr = [Connect dsn; Execute SelectServers]
         ++ List.map (fun row => Execute (SelectTicketSums (row_guild_id row)))
                     (select_servers db)
         ++ [Close].
Proof.
  unfold run, list_servers, require_api_key, list_servers_body, try_except,
    get_db_connection, jsonify, jsonify_error.
  intros Hrun.
  destruct (bool_decide _); [discriminate|].
  unfold bind at 1 in Hrun.
  set (dsn := connection_string env) in Hrun.
  unfold store_call at 1 in Hrun. cbn [List.length app] in Hrun.
  destruct (outage 0%nat); [discriminate|].
  unfold bind at 1, store_call at 1 in Hrun. cbn [List.length app] in Hrun.
  destruct (outage 1%nat); [discriminate|].
  unfold bind at 1 in Hrun.
  destruct (enrich db outage (select_servers db) [] _) as [[out|e] tr1] eqn:He;
    [|discriminate].
  apply enrich_trace in He. subst tr1.
  unfold bind, store_call, ret in Hrun.
  destruct (outage _); [discriminate|].
  injection Hrun as _ <-. exists dsn.
  cbn [app]. reflexivity.
Qed.

Lemma row_guild_id_listed (row : server_row) :
  listed_server db row !! "guild_id" = Some (VStr (row_guild_id row)).
Proof.
  pose proof (listed_lookup db row) as Hrow.
  destruct row as [[[[[[guild_id server_name] owner_id] owner_name]
                       activated_at] active] license_key].
  apply Hrow.
Qed.

(** X12: a server listing costs one statement for the join and one
    aggregate statement per listed server, issued in the order of the
    listing with the guild id of that server, between the connection and
    the close. *)
Theorem server_listing_queries_each_server (req : request)
    (servers : list (gmap string value)) (tr : list event) :
  run (list_servers env db outage req) = (Ok (jsonify (JServers servers)), tr) ->
  exists (dsn : string) (guild_ids : list string),
    List.map (fun server : gmap string value => server !! "guild_id") servers
    = List.map (fun g => Some (VStr g)) guild_ids /\
    tr = [Connect dsn; Execute SelectServers]
         ++ List.map (fun g => Execute (SelectTicketSums g)) guild_ids
         ++ [Close].
Proof.
  intros Hrun.
  destruct (list_servers_result_trace _ _ _ Hrun) as (dsn & ->).
  rewrite (list_servers_result _ _ _ _ _ _ Hrun).
  exists dsn, (List.map row_guild_id (select_servers db)).
  rewrite !map_map. split; [|reflexivity].
  apply map_ext. intros row. apply row_guild_id_listed.
Qed.

(** X13: every dict of a server listing has exactly the nine keys
    guild_id, server_name, owner_id, owner_name, activated_at, active,
    license_key, tickets_opened and tickets_closed. *)
Theorem listed_servers_have_nine_keys (req : request)
    (servers : list (gmap string value)) (tr : list event) :
  run (list_servers env db outage req) = (Ok (jsonify (JServers servers)), tr) ->
  List.Forall (fun server : gmap string value => dom server = server_keys)
              servers.
Proof.
  intros Hrun. rewrite (list_servers_result _ _ _ _ _ _ Hrun).
  apply List.Forall_forall. intros server Hserver.
  apply in_map_iff in Hserver as (row & <- & _).
  destruct row as [[[[[[guild_id server_name] owner_id] owner_name]
                       activated_at] active] license_key].
  unfold listed_server, with_ticket_sums, server_of_row.
  rewrite !dom_insert_L, dom_empty_L. vm_compute. reflexivity.
Qed.

(** X14: the dicts of a server listing are in descending order of
    [activated_at]. *)
Theorem listed_servers_are_newest_first (req : request)
    (servers : list (gmap string value)) (tr : list event) :
  run (list_servers env db outage req) = (Ok (jsonify (JServers servers)), tr) ->
  exists times : list Z,
    List.map (fun server : gmap string value => server !! "activated_at") servers
    = List.map (fun t => Some (VTimestamp t)) times /\
    StronglySorted (fun t t' => t' <= t) times.
Proof.
  intros Hrun. rewrite (list_servers_result _ _ _ _ _ _ Hrun).
  set (pairs := order_by_desc
                  (fun al : activated_server * license_key =>
                     srv_activated_at (fst al)) (joined db)).
  exists (List.map (fun al : activated_server * license_key =>
                      srv_activated_at (fst al)) pairs).
  split.
  - unfold select_servers. fold pairs. rewrite !map_map.
    apply map_ext. intros [a l]. simpl.
    unfold listed_server, with_ticket_sums, server_of_row.
    rewrite !lookup_insert_ne by discriminate. apply lookup_insert_eq.
  - apply StronglySorted_map. apply order_by_desc_sorted.
Qed.

(** X15: [tickets_opened] and [tickets_closed] of a listed server are the
    sums over all rows the guild has in ticket_stats, however many. *)
Theorem listed_servers_show_all_time_sums (req : request)
    (servers : list (gmap string value)) (tr : list event) :
  run (list_servers env db outage req) = (Ok (jsonify (JServers servers)), tr) ->
  List.Forall
    (fun server : gmap string value =>
       exists guild_id : string,
         server !! "guild_id" = Some (VStr guild_id) /\
         server !! "tickets_opened"
         = Some (VInt (Zsum (List.map ts_tickets_opened
                                      (stats_of db guild_id)))) /\
         server !! "tickets_closed"
         = Some (VInt (Zsum (List.map ts_tickets_closed
                                      (stats_of db guild_id)))))
    servers.
Proof.
  intros Hrun. rewrite (list_servers_result _ _ _ _ _ _ Hrun).
  apply List.Forall_forall. intros server Hserver.
  apply in_map_iff in Hserver as (row & <- & _).
  pose proof (listed_lookup db row) as Hrow.
  destruct row as [[[[[[guild_id server_name] owner_id] owner_name]
                       activated_at] active] license_key].
  destruct Hrow as (Hg & _ & Ho & Hc).
  exists guild_id. split; [exact Hg|]. split; [exact Ho | exact Hc].
Qed.

(** With distinct key ids a guild row is joined with at most one license
    row: the guild rows of the join are the rows that have a license, in
    the order of the table. *)
Lemma joined_guilds :
  List.NoDup (List.map key_id (license_keys db)) ->
  List.map fst (joined db)
  = List.filter (has_license db) (activated_servers db).
Proof.
  intros Hkeys. unfold joined, has_license.
  induction (activated_servers db) as [|a guilds IH]; [reflexivity|].
  cbn [List.flat_map List.filter]. rewrite map_app, IH, map_map.
  pose proof (matching_licenses_unique a _ Hkeys) as Hlen.
  destruct (existsb (key_matches a) (license_keys db));
    destruct (List.filter (key_matches a) (license_keys db)) as [|l [|l' rest]];
    simpl in Hlen; try discriminate; reflexivity.
Qed.

(** X16: when no two rows of license_keys share a key id, a server listing
    has exactly one dict for each row of activated_servers whose key id is
    the key id of a license row, and none for the others: the guild ids of
    the listing are, up to order, the guild ids of those rows, each as
    many times as it has rows. *)
Theorem one_dict_per_licensed_guild (req : request)
    (servers : list (gmap string value)) (tr : list event) :
  run (list_servers env db outage req) = (Ok (jsonify (JServers servers)), tr) ->
  List.NoDup (List.map key_id (license_keys db)) ->
  Permutation
    (List.map (fun server : gmap string value => server !! "guild_id") servers)
    (List.map (fun a => Some (VStr (srv_guild_id a)))
              (List.filter (has_license db) (activated_servers db))) /\
  List.length servers
  = List.length (List.filter (has_license db) (activated_servers db)).
Proof.
  intros Hrun Hkeys. rewrite (list_servers_result _ _ _ _ _ _ Hrun).
  assert (Hids :
    List.map (fun server : gmap string value => server !! "guild_id")
             (List.map (listed_server db) (select_servers db))
    = List.map (fun a => Some (VStr (srv_guild_id a)))
               (List.map fst
                  (order_by_desc
                     (fun al : activated_server * license_key =>
                        srv_activated_at (fst al)) (joined db)))).
  { unfold select_servers. rewrite !map_map. apply map_ext.
    intros [a l]. apply row_guild_id_listed. }
  assert (Hperm :
    Permutation
      (List.map fst
         (order_by_desc
            (fun al : activated_server * license_key =>
               srv_activated_at (fst al)) (joined db)))
      (List.filter (has_license db) (activated_servers db))).
  { rewrite <- (joined_guilds Hkeys).
    apply Permutation_map, order_by_desc_Permutation. }
  split.
  - rewrite Hids. now apply Permutation_map.
  - apply Permutation_length in Hperm.
    rewrite length_map in Hperm. rewrite <- Hperm.
    unfold select_servers. now rewrite !length_map.
Qed.

End MoreServers.

Lemma server_listing_queries_each_server_example :
  exists (dsn : string) (guild_ids : list string),
    List.map (fun server : gmap string value => server !! "guild_id")
             sample_servers
    = List.map (fun g => Some (VStr g)) guild_ids /\
    sample_servers_trace
    = [Connect dsn; Execute SelectServers]
      ++ List.map (fun g => Execute (SelectTicketSums g)) guild_ids
      ++ [Close].
Proof.
  apply (server_listing_queries_each_server sample_env sample_db healthy
           with_key sample_servers sample_servers_trace).
  exact sample_servers_returned.
Defined.

Lemma listed_servers_have_nine_keys_example :
  List.Forall (fun server : gmap string value => dom server = server_keys)
              sample_servers.
Proof.
  apply (listed_servers_have_nine_keys sample_env sample_db healthy with_key
           sample_servers sample_servers_trace).
  exact sample_servers_returned.
Defined.

Lemma listed_servers_are_newest_first_example :
  exists times : list Z,
    List.map (fun server : gmap string value => server !! "activated_at")
             sample_servers
    = List.map (fun t => Some (VTimestamp t)) times /\
    StronglySorted (fun t t' => t' <= t) times.
Proof.
  apply (listed_servers_are_newest_first sample_env sample_db healthy with_key
           sample_servers sample_servers_trace).
  exact sample_servers_returned.
Defined.

Lemma listed_servers_show_all_time_sums_example :
  List.Forall
    (fun server : gmap string value =>
       exists guild_id : string,
         server !! "guild_id" = Some (VStr guild_id) /\
         server !! "tickets_opened"
         = Some (VInt (Zsum (List.map ts_tickets_opened
                                      (stats_of sample_db guild_id)))) /\
         server !! "tickets_closed"
         = Some (VInt (Zsum (List.map ts_tickets_closed
                                      (stats_of sample_db guild_id)))))
    sample_servers.
Proof.
  apply (listed_servers_show_all_time_sums sample_env sample_db healthy
           with_key sample_servers sample_servers_trace).
  exact sample_servers_returned.
Defined.

Lemma one_dict_per_licensed_guild_example :
  Permutation
    (List.map (fun server : gmap string value => server !! "guild_id")
              sample_servers)
    (List.map (fun a => Some (VStr (srv_guild_id a)))
              (List.filter (has_license sample_db)
                           (activated_servers sample_db))) /\
  List.length sample_servers
  = List.length (List.filter (has_license sample_db)
                             (activated_servers sample_db)).
Proof.
  apply (one_dict_per_licensed_guild sample_env sample_db healthy with_key
           sample_servers sample_servers_trace).
  - exact sample_servers_returned.
  - simpl. repeat constructor; simpl; intuition discriminate.
Defined.

(** ** Failures *)

Section Failures.
Context {A : Type} `{PyReal A}.
Variables (env : environ) (db : database A) (outage : nat -> bool).

Lemma enrich_up (rows : list server_row) :
  forall servers tr,
    (forall m, (List.length tr <= m < List.length tr + List.length rows)%nat ->
               outage m = false) ->
    enrich db outage rows servers tr
    = (Ok (servers ++ List.map (listed_server db) rows),
       tr ++ List.map (fun row => Execute (SelectTicketSums (row_guild_id row)))
                      rows).
Proof.
  induction rows as [|row rows IH]; intros servers tr Hup.
  - simpl. unfold ret. now rewrite !app_nil_r.
  - cbn [enrich]. unfold bind at 1, store_call.
    rewrite Hup by (simpl; lia). rewrite IH.
    + cbn [List.map]. now rewrite <- !app_assoc.
    + intros m Hm. apply Hup. rewrite length_app in Hm. simpl in *. lia.
Qed.

Lemma enrich_down (rows : list server_row) :
  forall servers tr k,
    (List.length tr <= k < List.length tr + List.length rows)%nat ->
    outage k = true ->
    (forall m, (m < k)%nat -> outage m = false) ->
    exists tr',
      enrich db outage rows servers tr = (Raise OperationalError, tr') /\
      List.length tr' = Datatypes.S k.
Proof.
  induction rows as [|row rows IH]; intros servers tr k Hk Hout Hbefore.
  - simpl in Hk. lia.
  - cbn [enrich]. unfold bind at 1, store_call.
    destruct (Nat.eq_dec k (List.length tr)) as [->|Hne].
    + rewrite Hout. eexists. split; [reflexivity|].
      rewrite length_app. simpl. lia.
    + rewrite Hbefore by lia. apply IH; try assumption.
      rewrite length_app. simpl in *. lia.
Qed.

(** X18: a server listing is all or nothing: when a store call of the
    request fails (the connection, the join, one of the per-server
    aggregates or the close), the answer is 500 with an error body and no
    partial list, and the failed call is the last one the store sees. *)
Theorem server_listing_fails_as_a_whole (req : request) (dsn : string)
    (k : nat) :
  x_api_key req = API_KEY env ->
  DATABASE_URL env = Some dsn ->
  (k <= 2 + List.length (select_servers db))%nat ->
  outage k = true ->
  (forall m, (m < k)%nat -> outage m = false) ->
  exists tr,
    run (list_servers env db outage req)
    = (Ok (jsonify_error (str_exn OperationalError) 500), tr) /\
    List.length tr = Datatypes.S k.
Proof.
  intros Hauth Hdsn Hk Hout Hbefore.
  unfold run, list_servers. rewrite require_api_key_pass by assumption.
  unfold list_servers_body, try_except, get_db_connection.
  unfold connection_string. rewrite Hdsn. unfold bind at 1, store_call at 1. cbn [List.length app].
  destruct k as [|k]; [rewrite Hout; eexists; split; reflexivity|].
  rewrite (Hbefore 0%nat) by lia.
  unfold bind at 1, store_call at 1. cbn [List.length app].
  destruct k as [|k]; [rewrite Hout; eexists; split; reflexivity|].
  rewrite (Hbefore 1%nat) by lia.
  unfold bind at 1.
  destruct (Nat.lt_ge_cases (S (S k)) (2 + List.length (select_servers db)))
    as [Hloop|Hclose].
  - destruct (enrich_down (select_servers db) []
                [Connect dsn; Execute SelectServers] (S (S k)))
      as (tr' & -> & Hlen); try assumption; [simpl; lia|].
    exists tr'. split; [reflexivity | assumption].
  - rewrite enrich_up by (intros m Hm; apply Hbefore; simpl in Hm; lia).
    unfold bind, store_call, ret.
    assert (Hlast : List.length
                      ([Connect dsn; Execute SelectServers]
                       ++ List.map (fun row => Execute (SelectTicketSums
                                                          (row_guild_id row)))
                                   (select_servers db))
                    = S (S k))
      by (rewrite length_app, length_map; simpl; lia).
    rewrite Hlast, Hout. eexists. split; [reflexivity|].
    rewrite length_app, Hlast. simpl. lia.
Qed.

(** X19: a failing store call ends a guild report: when a call of the
    request fails (for the calls after the lookup: of a request for a known
    guild), the answer is 500 with an error body and the failed call is the
    last one the store sees. *)
Theorem guild_report_fails_as_a_whole (req : request)
    (guild_id dsn : string) (k : nat) :
  x_api_key req = API_KEY env ->
  DATABASE_URL env = Some dsn ->
  (k <= 5)%nat ->
  ((2 <= k)%nat -> select_guild_info db guild_id <> None) ->
  outage k = true ->
  (forall m, (m < k)%nat -> outage m = false) ->
  exists tr,
    run (guild_stats env db outage req guild_id)
    = (Ok (jsonify_error (str_exn OperationalError) 500), tr) /\
    List.length tr = Datatypes.S k.
Proof.
  intros Hauth Hdsn Hk Hknown Hout Hbefore.
  unfold run, guild_stats. rewrite require_api_key_pass by assumption.
  unfold guild_stats_body, try_except, bind, get_db_connection, store_call,
    lift, ret.
  unfold connection_string. rewrite Hdsn. cbn [List.length app].
  destruct k as [|k]; [rewrite Hout; eexists; split; reflexivity|].
  rewrite (Hbefore 0%nat) by lia. cbn [List.length app].
  destruct k as [|k]; [rewrite Hout; eexists; split; reflexivity|].
  rewrite (Hbefore 1%nat) by lia.
  destruct (select_guild_info db guild_id) as [[server_name owner_name]|];
    [|exfalso; apply Hknown; [lia | reflexivity]].
  cbn [List.length app].
  destruct k as [|k]; [rewrite Hout; eexists; split; reflexivity|].
  rewrite (Hbefore 2%nat) by lia. cbn [List.length app].
  destruct k as [|k]; [rewrite Hout; eexists; split; reflexivity|].
  rewrite (Hbefore 3%nat) by lia. cbn [List.length app].
  destruct k as [|k]; [rewrite Hout; eexists; split; reflexivity|].
  rewrite (Hbefore 4%nat) by lia. cbn [List.length app].
  destruct k as [|k]; [rewrite Hout; eexists; split; reflexivity|].
  lia.
Qed.

End Failures.

Lemma server_listing_fails_as_a_whole_example :
  exists tr,
    run (list_servers sample_env sample_db (down_at 3) with_key)
    = (Ok (jsonify_error (str_exn OperationalError) 500), tr) /\
    List.length tr = 4%nat.
Proof.
  apply (server_listing_fails_as_a_whole sample_env sample_db (down_at 3)
           with_key "postgres://db" 3%nat);
    try reflexivity.
  - simpl. lia.
  - intros m Hm. unfold down_at. apply Nat.eqb_neq. lia.
Defined.

Lemma guild_report_fails_as_a_whole_example :
  exists tr,
    run (guild_stats sample_env sample_db (down_at 4) with_key "g1")
    = (Ok (jsonify_error (str_exn OperationalError) 500), tr) /\
    List.length tr = 5%nat.
Proof.
  apply (guild_report_fails_as_a_whole sample_env sample_db (down_at 4)
           with_key "g1" "postgres://db" 4%nat);
    try reflexivity.
  - lia.
  - intros _. discriminate.
  - intros m Hm. unfold down_at. apply Nat.eqb_neq. lia.
Defined.

(** ** Every request is answered *)

(** Closes a goal [answers allowed outcome] once the outcome is a pair of
    an answer and a trace. *)
Ltac conclude_answer :=
  eexists _, _; split; [reflexivity|]; split; [simpl; tauto|];
  cbn [status body jsonify jsonify_error];
  split;
  [ first [ discriminate | intros _ msg; discriminate ]
  | first [ reflexivity | intros Hno; exfalso; exact (Hno _ eq_refl) ] ].

Section Answers.
Context {A : Type} `{PyReal A}.
Variables (env : environ) (db : database A) (outage : nat -> bool).

(** X20: no exception escapes a handler: whatever the request, the
    configuration, the content of the store and the store calls that fail,
    guild_stats answers 200, 401, 404 or 500, list_licenses and
    list_servers answer 200, 401 or 500, and the body is an error message
    exactly when the status is not 200. *)
Theorem every_request_is_answered (req : request) (guild_id : string) :
  answers [200; 401; 404; 500]
          (run (guild_stats env db outage req guild_id)) /\
  answers [200; 401; 500] (run (list_licenses env db outage req)) /\
  answers [200; 401; 500] (run (list_servers env db outage req)).
Proof.
  split; [|split].
  - unfold run, guild_stats, require_api_key, guild_stats_body, try_except,
      bind, get_db_connection, store_call, lift, ret, raise.
    destruct (bool_decide _); [conclude_answer|].
    cbn [List.length app].
    destruct (outage 0%nat); [conclude_answer|]. cbn [List.length app].
    destruct (outage 1%nat); [conclude_answer|].
    destruct (select_guild_info db guild_id) as [[server_name owner_name]|];
      [|conclude_answer].
    cbn [List.length app].
    destruct (outage 2%nat); [conclude_answer|]. cbn [List.length app].
    destruct (outage 3%nat); [conclude_answer|]. cbn [List.length app].
    destruct (outage 4%nat); [conclude_answer|]. cbn [List.length app].
    destruct (outage 5%nat); [conclude_answer|].
    destruct (tickets_total _); conclude_answer.
  - unfold run, list_licenses, require_api_key, list_licenses_body,
      try_except, bind, get_db_connection, store_call, ret, raise.
    destruct (bool_decide _); [conclude_answer|].
    cbn [List.length app].
    destruct (outage 0%nat); [conclude_answer|]. cbn [List.length app].
    destruct (outage 1%nat); [conclude_answer|]. cbn [List.length app].
    destruct (outage 2%nat); conclude_answer.
  - unfold run, list_servers, require_api_key, list_servers_body, try_except,
      get_db_connection, raise.
    destruct (bool_decide _); [unfold ret; conclude_answer|].
    unfold bind at 1.
    unfold store_call at 1. cbn [List.length app].
    destruct (outage 0%nat); [conclude_answer|].
    unfold bind at 1, store_call at 1. cbn [List.length app].
    destruct (outage 1%nat); [conclude_answer|].
    unfold bind at 1.
    destruct (enrich db outage (select_servers db) [] _) as [[out|e] tr1];
      [|conclude_answer].
    unfold bind, store_call, ret.
    destruct (outage (List.length tr1)); conclude_answer.
Qed.

End Answers.

(** ** The shape of a report *)

Section Shape.
Context {A : Type} `{PyReal A}.
Variables (env : environ) (db : database A) (outage : nat -> bool).
Implicit Types (ticket_stats : list (stat A)).

(** X21: the average of a total is the int 0 exactly when no row of the
    window has closed tickets; otherwise it is a value of the column's
    number type (a float), also when that value is zero. *)
Theorem average_is_int_zero_iff_no_closures ticket_stats :
  exists a,
    total_avg_resolution_time ticket_stats = Ok a /\
    (a = PyInt 0 <->
     List.Forall (fun s => tickets_closed s <= 0) ticket_stats) /\
    (a = PyInt 0 \/ exists x, a = PyFloat x).
Proof.
  destruct (List.Forall_Exists_dec (fun s : stat A => tickets_closed s <= 0)
              (fun s => Z_le_dec (tickets_closed s) 0) ticket_stats)
    as [Hnone|Hsome].
  - assert (Hrows : List.filter has_closed ticket_stats = []).
    { induction Hnone as [|s l Hs Hl IH]; [reflexivity|]. simpl.
      unfold has_closed at 1.
      destruct (Z.ltb_spec 0 (tickets_closed s)); [lia | exact IH]. }
    exists (PyInt 0). unfold total_avg_resolution_time.
    rewrite py_sum_int_spec, Hrows. simpl.
    split; [reflexivity|]. split; [tauto | now left].
  - assert (Hclosing : exists s, In s ticket_stats /\ 0 < tickets_closed s).
    { apply List.Exists_exists in Hsome as (s & Hs & Hpos).
      exists s. split; [assumption | lia]. }
    destruct (tickets_total_with_closed _ Hclosing) as (W & _ & _ & Htotal).
    destruct (tickets_total_fields _ _ Htotal) as (_ & _ & Havg).
    simpl in Havg. eexists. split; [exact Havg|]. split.
    + split; [discriminate|]. intros Hnone. exfalso.
      destruct Hclosing as (s & Hs & Hpos).
      rewrite List.Forall_forall in Hnone. specialize (Hnone s Hs). lia.
    + right. now eexists.
Qed.

Lemma select_guild_info_some (guild_id server_name owner_name : string) :
  select_guild_info db guild_id = Some (server_name, owner_name) ->
  exists a,
    In a (activated_servers db) /\ srv_guild_id a = guild_id /\
    server_name = srv_server_name a /\ owner_name = srv_owner_name a.
Proof.
  unfold select_guild_info.
  destruct (List.filter _ (activated_servers db)) as [|a rest] eqn:Hrows;
    [discriminate|].
  intros [= <- <-].
  assert (Ha : In a (List.filter
                       (fun a => String.eqb (srv_guild_id a) guild_id)
                       (activated_servers db)))
    by (rewrite Hrows; now left).
  apply filter_In in Ha as [Ha Hid]. apply String.eqb_eq in Hid.
  exists a. repeat split; assumption.
Qed.

(** X22: a report names the guild that was asked for, with the name and
    the owner of a row of activated_servers that carries its id; it costs
    the connection, four statements (lookup, ticket rows, feedback summary,
    feedback distribution) and the close, in that order. *)
Theorem report_is_for_the_requested_guild (req : request) (guild_id : string)
    (r : guild_report A) (tr : list event) :
  run (guild_stats env db outage req guild_id)
  = (Ok (jsonify (JGuildReport r)), tr) ->
  id (guild r) = guild_id /\
  (exists a,
      In a (activated_servers db) /\ srv_guild_id a = guild_id /\
      name (guild r) = srv_server_name a /\ owner (guild r) = srv_owner_name a) /\
  exists dsn,
    tr = [Connect dsn; Execute (SelectGuildInfo guild_id);
          Execute (SelectTicketStats guild_id);
          Execute (SelectFeedbackOverall guild_id);
          Execute (SelectFeedbackDistribution guild_id); Close].
Proof.
  unfold run, guild_stats, require_api_key, guild_stats_body, try_except,
    bind, get_db_connection, store_call, lift, ret, raise, jsonify,
    jsonify_error.
  intros Hrun.
  destruct (bool_decide _); [discriminate|].
  set (dsn := connection_string env) in Hrun.
  cbn [List.length app] in Hrun.
  destruct (outage 0%nat); [discriminate|].
  cbn [List.length app] in Hrun.
  destruct (outage 1%nat); [discriminate|].
  destruct (select_guild_info db guild_id) as [[server_name owner_name]|]
    eqn:Hinfo; [|discriminate].
  cbn [List.length app] in Hrun.
  destruct (outage 2%nat); [discriminate|].
  cbn [List.length app] in Hrun.
  destruct (outage 3%nat); [discriminate|].
  cbn [List.length app] in Hrun.
  destruct (outage 4%nat); [discriminate|].
  cbn [List.length app] in Hrun.
  destruct (outage 5%nat); [discriminate|].
  destruct (tickets_total _) as [t|e]; [|discriminate].
  injection Hrun as <- <-. simpl.
  split; [reflexivity|]. split; [now apply select_guild_info_some|].
  now exists dsn.
Qed.

End Shape.

Lemma report_is_for_the_requested_guild_example :
  id (guild sample_report) = "g1" /\
  (exists a,
      In a (activated_servers sample_db) /\ srv_guild_id a = "g1" /\
      name (guild sample_report) = srv_server_name a /\
      owner (guild sample_report) = srv_owner_name a) /\
  exists dsn,
    sample_report_trace
    = [Connect dsn; Execute (SelectGuildInfo "g1");
       Execute (SelectTicketStats "g1"); Execute (SelectFeedbackOverall "g1");
       Execute (SelectFeedbackDistribution "g1"); Close].
Proof.
  apply (report_is_for_the_requested_guild sample_env sample_db healthy
           with_key "g1" sample_report sample_report_trace).
  exact sample_report_returned.
Defined.
